(** * ProsperCommon: layered configuration lookup

    A shallow embedding of [prosper/common/prosper_config.py]: the path
    helper [get_local_config_filepath], the loaders [get_configs] and
    [get_config], and the resolver class [ProsperConfig] with its
    constructor and [get_option].

    Python effects are explicit.  A computation returns the list of events
    it performed (log records, warnings, file-system probes) together with
    either a value or the exception that escaped. *)

From Stdlib Require Import ZArith Bool List Ascii String Lia.
From stdpp Require Import base strings gmap.

Local Open Scope string_scope.
Local Open Scope list_scope.

(** ** Python values and exceptions *)

(** The objects a caller can hand to [get_option] as [args_option] and
    [args_default], and the values a configuration lookup yields ([str], or
    [None] for a key declared without a value). *)
Inductive pyval : Type :=
| PyNone
| PyBool (b : bool)
| PyInt (z : Z)
| PyStr (s : string).

(** Python's [==] on these objects: [bool] is a subclass of [int] and
    compares numerically with it; objects of unrelated types are unequal. *)
Definition py_eq (x y : pyval) : bool :=
  match x, y with
  | PyNone, PyNone => true
  | PyBool a, PyBool b => Bool.eqb a b
  | PyBool a, PyInt z | PyInt z, PyBool a => Z.eqb (Z.b2z a) z
  | PyInt a, PyInt b => Z.eqb a b
  | PyStr a, PyStr b => String.eqb a b
  | _, _ => false
  end.

(** Python's [!=]. *)
Definition py_ne (x y : pyval) : bool := negb (py_eq x y).

(** The exceptions that occur in the module.  [IOError] is an alias of
    [OSError], of which [FileNotFoundError] is a subclass. *)
Inductive pyexn : Type :=
| KeyError (key : string)
| TypeError (msg : string)
| FileNotFoundError (filename : string)
| ParsingError (source : string)
| NoSectionError (section_name : string)
| NoOptionError (option_name section_name : string)
| InterpolationError (option_name section_name : string).

Definition is_KeyError (e : pyexn) : bool :=
  match e with KeyError _ => true | _ => false end.

Definition is_IOError (e : pyexn) : bool :=
  match e with FileNotFoundError _ => true | _ => false end.

Inductive result (A : Type) : Type :=
| Ok (a : A)
| Raise (e : pyexn).
Arguments Ok {A} a.
Arguments Raise {A} e.

(** ** Observable effects *)

Inductive level : Type := DEBUG | WARNING.

Inductive category : Type := UserWarning | DeprecationWarning.

Inductive event : Type :=
| Log (logger : string) (lvl : level) (msg : string)
| Warn (cat : category) (msg : string)
| IsFile (filepath : string)
| Open (filepath : string).

(** A computation: the events performed, in order, and the outcome. *)
Definition Py (A : Type) : Type := list event * result A.

Definition ret {A} (a : A) : Py A := ([], Ok a).

Definition raise {A} (e : pyexn) : Py A := ([], Raise e).

Definition emit (ev : event) : Py unit := ([ev], Ok tt).

Definition bind {A B} (m : Py A) (k : A -> Py B) : Py B :=
  match m with
  | (tr, Ok a) => let '(tr', r) := k a in (tr ++ tr', r)
  | (tr, Raise e) => (tr, Raise e)
  end.

Definition lift {A} (r : result A) : Py A := ([], r).

(** One [except <class> as e: handler] clause: the test recognising the
    class, and the handler. *)
Definition clause (A : Type) : Type := (pyexn -> bool) * (pyexn -> Py A).

(** The first clause whose class matches the exception, as Python picks
    it. *)
Fixpoint select {A} (clauses : list (clause A)) (e : pyexn)
    : option (pyexn -> Py A) :=
  match clauses with
  | [] => None
  | (handles, handler) :: rest =>
      if handles e then Some handler else select rest e
  end.

(** [try: body except ...: ...]; an exception no clause matches keeps
    propagating. *)
Definition try_except {A} (body : Py A) (clauses : list (clause A)) : Py A :=
  match body with
  | (tr, Ok a) => (tr, Ok a)
  | (tr, Raise e) =>
      match select clauses e with
      | Some handler => let '(tr', r) := handler e in (tr ++ tr', r)
      | None => (tr, Raise e)
      end
  end.

(** [except Exception] matches every exception of the module. *)
Definition is_Exception (e : pyexn) : bool := true.

Declare Scope py_scope.
Delimit Scope py_scope with py.
Notation "x <- m ;; k" := (bind m (fun x => k))
  (at level 100, m at next level, right associativity) : py_scope.
Notation "m ;; k" := (bind m (fun _ => k))
  (at level 100, right associativity) : py_scope.
Local Open Scope py_scope.

Definition trace {A} (m : Py A) : list event := fst m.
Definition outcome {A} (m : Py A) : result A := snd m.

(** Read the trace and the outcome off a computation in normal form. *)
Ltac observe := unfold outcome, trace; cbn [fst snd is_IOError].

Definition raises {A} (m : Py A) : Prop := exists e, outcome m = Raise e.
Definition returns {A} (m : Py A) : Prop := exists a, outcome m = Ok a.

(** ** Strings *)

Module Str.

(** [s.replace(old, new)] for a non-empty [old]: scan left to right; at a
    match emit [new] and skip the rest of the matched text, so occurrences
    are replaced without overlap.  [skip] counts the characters of the
    current match still to be dropped. *)
Fixpoint replace_from (old new : string) (skip : nat) (s : string) : string :=
  match s with
  | EmptyString => EmptyString
  | String c s' =>
      match skip with
      | S n => replace_from old new n s'
      | O =>
          if String.prefix old s
          then new +:+ replace_from old new (Nat.pred (String.length old)) s'
          else String c (replace_from old new 0 s')
      end
  end.

(** With an empty [old] Python puts [new] before every character and at
    the end. *)
Fixpoint intersperse (new s : string) : string :=
  match s with
  | EmptyString => new
  | String c s' => new +:+ String c (intersperse new s')
  end.

Definition replace (s old new : string) : string :=
  match old with
  | EmptyString => intersperse new s
  | String _ _ => replace_from old new 0 s
  end.

Definition lower_ascii (c : ascii) : ascii :=
  let n := nat_of_ascii c in
  if (Nat.leb 65 n && Nat.leb n 90)%bool then ascii_of_nat (n + 32) else c.

(** [s.lower()] on ASCII text. *)
Fixpoint lower (s : string) : string :=
  match s with
  | EmptyString => EmptyString
  | String c s' => String (lower_ascii c) (lower s')
  end.

(** [old] occurs in [s] at some position. *)
Fixpoint occurs (old s : string) : bool :=
  String.prefix old s ||
  match s with
  | EmptyString => false
  | String _ s' => occurs old s'
  end.

(** [old] starts at none of the positions of [a] in the text [a +:+ rest]:
    the leftmost match, if any, lies in [rest]. *)
Fixpoint no_match_within (old a rest : string) : bool :=
  match a with
  | EmptyString => true
  | String c a' =>
      negb (String.prefix old (a +:+ rest)) && no_match_within old a' rest
  end.

End Str.

(** ** The file system *)

(** The files the process can read, by path, with their text. *)
Definition filesystem : Type := gmap string string.

(** [os.path.isfile(p)]. *)
Definition isfile (fs : filesystem) (p : string) : Py bool :=
  emit (IsFile p) ;;
  ret (bool_decide (is_Some (fs !! p))).

(** [open(p, 'r')], yielding the text the handle reads. *)
Definition open (fs : filesystem) (p : string) : Py string :=
  emit (Open p) ;;
  match fs !! p with
  | Some text => ret text
  | None => raise (FileNotFoundError p)
  end.

(** ** [get_local_config_filepath] *)

Definition get_local_config_filepath (fs : filesystem)
    (config_filepath : string) (force_local : bool) : Py string :=
  let local_config_filepath :=
    Str.replace config_filepath ".cfg" "_local.cfg" in
  found <- isfile fs local_config_filepath ;;
  if (found || force_local)%bool
  then ret local_config_filepath
  else ret config_filepath.

(** ** Configuration documents ([configparser.ConfigParser]) *)

(** A value is [Some text], or [None] for a key declared without a value
    ([allow_no_value=True]).  Option names are stored lower-cased. *)
Record ConfigParser : Type := {
  _sections : gmap string (gmap string (option string));
  _defaults : gmap string (option string)
}.

Definition pyval_of (v : option string) : pyval :=
  match v with
  | Some s => PyStr s
  | None => PyNone
  end.

Module CP.

Definition default_section : string := "DEFAULT".

Definition optionxform (optionstr : string) : string := Str.lower optionstr.

Definition has_section (cp : ConfigParser) (section : string) : bool :=
  bool_decide (is_Some (_sections cp !! section)).

Definition has_option (cp : ConfigParser) (section opt : string) : bool :=
  if (String.eqb section "" || String.eqb section default_section)%bool
  then bool_decide (is_Some (_defaults cp !! optionxform opt))
  else
    match _sections cp !! section with
    | None => false
    | Some sectiondict =>
        bool_decide (is_Some (sectiondict !! optionxform opt))
        || bool_decide (is_Some (_defaults cp !! optionxform opt))
    end.

(** [section in cp and key in cp[section]]: the pair is present. *)
Definition contains (cp : ConfigParser) (section key : string) : bool :=
  (String.eqb section default_section || has_section cp section)
  && has_option cp section key.

(** The chained lookup: the section's own entries shadow the defaults. *)
Definition _unify_values (cp : ConfigParser) (section : string)
    : result (gmap string (option string)) :=
  match _sections cp !! section with
  | Some sectiondict => Ok (sectiondict ∪ _defaults cp)
  | None =>
      if String.eqb section default_section
      then Ok (∅ ∪ _defaults cp)
      else Raise (NoSectionError section)
  end.

Section Interpolation.

(** [ExtendedInterpolation.before_get]: expands the references of a raw
    value, or raises. *)
Variable before_get :
  ConfigParser -> string -> string -> string -> result string.

Definition get (cp : ConfigParser) (section opt : string)
    : result (option string) :=
  match _unify_values cp section with
  | Raise e => Raise e
  | Ok d =>
      let opt := optionxform opt in
      match d !! opt with
      | None => Raise (NoOptionError opt section)
      | Some None => Ok None
      | Some (Some value) =>
          match before_get cp section opt value with
          | Ok s => Ok (Some s)
          | Raise e => Raise e
          end
      end
  end.

(** [cp[section][key]]: [ConfigParser.__getitem__] checks the section and
    hands out its proxy, [SectionProxy.__getitem__] checks the option and
    calls [get]. *)
Definition getitem (cp : ConfigParser) (section key : string)
    : result (option string) :=
  if (negb (String.eqb section default_section)
      && negb (has_section cp section))%bool
  then Raise (KeyError section)
  else if negb (has_option cp section key)
  then Raise (KeyError key)
  else get cp section key.

End Interpolation.

End CP.

(** ** The module [prosper_config] *)

Definition __name__ : string := "prosper.common.prosper_config".

(** [DEFAULT_LOGGER = logging.getLogger('NULL')]; a logger is known by its
    name, and a record it is handed shows up as a [Log] event. *)
Definition DEFAULT_LOGGER : string := "NULL".

Record ProsperConfig : Type := {
  logger : string;
  config_filename : string;
  local_config_filename : string;
  global_config : ConfigParser;
  local_config : option ConfigParser
}.

(** Truth value of an optional path argument: [None] and [''] are false. *)
Definition truthy (o : option string) : bool :=
  match o with
  | Some (String _ _) => true
  | _ => false
  end.

(** The path [get_configs] ends up reading the local document from: the
    override when one is given, else the derived path (selection forced). *)
Definition local_source (config_filepath : string)
    (local_filepath_override : option string) : string :=
  if truthy local_filepath_override
  then default "" local_filepath_override
  else Str.replace config_filepath ".cfg" "_local.cfg".

(** The path [get_local_config_filepath] picks without the force flag. *)
Definition outcome_path (fs : filesystem) (config_filepath : string) : string :=
  if bool_decide
       (is_Some (fs !! Str.replace config_filepath ".cfg" "_local.cfg"))
  then Str.replace config_filepath ".cfg" "_local.cfg"
  else config_filepath.

Section Module_prosper_config.

(** The parser both loaders configure (extended interpolation, keys
    without value allowed, [=] the only delimiter, [#] for inline
    comments): [read_file] turns the text of a file into a document or
    raises, [before_get] expands a value on access. *)
Variable read_file : string -> result ConfigParser.
Variable before_get :
  ConfigParser -> string -> string -> string -> result string.

(** [with open(filepath, 'r') as filehandle: config.read_file(filehandle)]
    on a fresh parser. *)
Definition load (fs : filesystem) (filepath : string) : Py ConfigParser :=
  filehandle <- open fs filepath ;;
  lift (read_file filehandle).

Definition get_configs (fs : filesystem) (config_filepath : string)
    (local_filepath_override : option string)
    : Py (ConfigParser * option ConfigParser) :=
  global_config <-
    try_except (load fs config_filepath)
      [(is_Exception, fun error_msg => raise error_msg)] ;;
  local_filepath <- get_local_config_filepath fs config_filepath true ;;
  let local_filepath :=
    if truthy local_filepath_override
    then default "" local_filepath_override
    else local_filepath in
  local_config <-
    try_except (cp <- load fs local_filepath ;; ret (Some cp))
      [(is_IOError, fun error_msg =>
          emit (Warn UserWarning
                  ("No " +:+ local_filepath +:+ " found in path")) ;;
          ret None);
       (is_Exception, fun error_msg => raise error_msg)] ;;
  ret (global_config, local_config).

Definition get_config (fs : filesystem) (config_filepath : string)
    (local_override : bool) : Py ConfigParser :=
  emit (Warn DeprecationWarning
          (__name__ +:+ "replaced with ProsperConfig")) ;;
  real_config_filepath <- get_local_config_filepath fs config_filepath false ;;
  let real_config_filepath :=
    if local_override then config_filepath else real_config_filepath in
  load fs real_config_filepath.

(** [ProsperConfig.__init__]. *)
Definition __init__ (fs : filesystem) (config_filename : string)
    (local_filepath_override : option string) (logger : string)
    : Py ProsperConfig :=
  local_config_filename <-
    get_local_config_filepath fs config_filename false ;;
  let local_config_filename :=
    if truthy local_filepath_override
    then default "" local_filepath_override
    else local_config_filename in
  configs <- get_configs fs config_filename local_filepath_override ;;
  ret {| logger := logger;
         config_filename := config_filename;
         local_config_filename := local_config_filename;
         global_config := fst configs;
         local_config := snd configs |}.

Definition debug (self : ProsperConfig) (msg : string) : Py unit :=
  emit (Log (logger self) DEBUG msg).

Definition warning (self : ProsperConfig) (msg : string) : Py unit :=
  emit (Log (logger self) WARNING msg).

(** [config[section_name][key_name]] where [config] may be [None]. *)
Definition subscript (config : option ConfigParser)
    (section_name key_name : string) : Py pyval :=
  match config with
  | None => raise (TypeError "'NoneType' object is not subscriptable")
  | Some cp =>
      v <- lift (CP.getitem before_get cp section_name key_name) ;;
      ret (pyval_of v)
  end.

(** [ProsperConfig.get_option].  A [try] block that returns yields
    [Some] of the value; its [except] clause, after which control goes on
    to the next statement, yields [None]. *)
Definition get_option (self : ProsperConfig) (section_name key_name : string)
    (args_option args_default : pyval) : Py pyval :=
  debug self "picking config" ;;
  if py_ne args_option args_default then
    debug self "-- using function args" ;;
    ret args_option
  else
    let section_info := section_name +:+ "." +:+ key_name in
    found <-
      try_except
        (local_option <-
           subscript (local_config self) section_name key_name ;;
         debug self "-- using local config" ;;
         ret (Some local_option))
        [(is_KeyError, fun _ =>
            debug self (section_info +:+ "not found in local config") ;;
            ret None)] ;;
    match found with
    | Some local_option => ret local_option
    | None =>
        found <-
          try_except
            (global_option <-
               subscript (Some (global_config self)) section_name key_name ;;
             debug self "-- using global config" ;;
             ret (Some global_option))
            [(is_KeyError, fun _ =>
                warning self (section_info +:+ "not found in global config") ;;
                ret None)] ;;
        match found with
        | Some global_option => ret global_option
        | None =>
            debug self "-- using default argument" ;;
            ret args_default
        end
    end.

(** [ProsperConfig.attach_logger]. *)
Definition attach_logger (self : ProsperConfig) (new_logger : string)
    : ProsperConfig :=
  {| logger := new_logger;
     config_filename := config_filename self;
     local_config_filename := local_config_filename self;
     global_config := global_config self;
     local_config := local_config self |}.

End Module_prosper_config.

(** Split [get_option] into its paths: by the override test, the local
    document and the two lookups. *)
Ltac get_option_paths before_get self section_name key_name :=
  unfold get_option, subscript, lift, debug, warning;
  destruct (local_config self) as [?local|];
  [ destruct (CP.getitem before_get local section_name key_name)
      as [?v|[]];
    destruct (CP.getitem before_get (global_config self)
                section_name key_name) as [?v|[]]
  | ].

(** ** A concrete parser for the examples

    A reader for the plain core of the dialect: blank lines, full-line
    [#] comments, [[section]] headers, [key = value] lines and keys without
    a value.  Text outside this core (indented lines, inline comments,
    [$] references, repeated names, a line that opens with a bracket and is
    not a plain header) is declined with [ParsingError].  On the
    documents it produces no value holds a [$], where expanding a value
    returns it unchanged. *)
Module Sample.

Definition nl : string := String (ascii_of_nat 10) EmptyString.

Definition is_space (c : ascii) : bool :=
  let n := nat_of_ascii c in
  (Nat.eqb n 32 || Nat.eqb n 9 || Nat.eqb n 13)%bool.

Fixpoint split_lines_aux (cur : string) (s : string) : list string :=
  match s with
  | EmptyString => [String.rev cur]
  | String c s' =>
      if Nat.eqb (nat_of_ascii c) 10
      then String.rev cur :: split_lines_aux EmptyString s'
      else split_lines_aux (String c cur) s'
  end.

Definition split_lines (s : string) : list string :=
  split_lines_aux EmptyString s.

Fixpoint lstrip (s : string) : string :=
  match s with
  | String c s' => if is_space c then lstrip s' else s
  | EmptyString => EmptyString
  end.

Definition rstrip (s : string) : string := String.rev (lstrip (String.rev s)).

Definition strip (s : string) : string := rstrip (lstrip s).

Fixpoint mentions (c : ascii) (s : string) : bool :=
  match s with
  | EmptyString => false
  | String d s' => (Ascii.eqb c d || mentions c s')%bool
  end.

(** Cut [s] at the first [c]. *)
Fixpoint break_at (c : ascii) (s : string) : option (string * string) :=
  match s with
  | EmptyString => None
  | String d s' =>
      if Ascii.eqb c d then Some (EmptyString, s')
      else match break_at c s' with
           | Some (l, r) => Some (String d l, r)
           | None => None
           end
  end.

(** The name inside a [[section]] header line. *)
Definition header (line : string) : option string :=
  match line with
  | String "[" rest =>
      match String.rev rest with
      | String "]" eman =>
          match eman with
          | EmptyString => None
          | _ => Some (String.rev eman)
          end
      | _ => None
      end
  | _ => None
  end.

Definition empty_document : ConfigParser :=
  {| _sections := ∅; _defaults := ∅ |}.

Definition add_section (cp : ConfigParser) (name : string)
    : option ConfigParser :=
  if String.eqb name CP.default_section then Some cp
  else match _sections cp !! name with
       | Some _ => None
       | None =>
           Some {| _sections := <[name := ∅]> (_sections cp);
                   _defaults := _defaults cp |}
       end.

Definition add_option (cp : ConfigParser) (section key : string)
    (value : option string) : option ConfigParser :=
  if String.eqb section CP.default_section then
    match _defaults cp !! key with
    | Some _ => None
    | None => Some {| _sections := _sections cp;
                      _defaults := <[key := value]> (_defaults cp) |}
    end
  else
    match _sections cp !! section with
    | None => None
    | Some d =>
        match d !! key with
        | Some _ => None
        | None =>
            Some {| _sections := <[section := <[key := value]> d]> (_sections cp);
                    _defaults := _defaults cp |}
        end
    end.

(** One line, given the section being filled (if any). *)
Definition read_line (cursect : option string) (cp : ConfigParser)
    (line : string) : option (option string * ConfigParser) :=
  let body := strip line in
  match body with
  | EmptyString => Some (cursect, cp)
  | String "#" _ => Some (cursect, cp)
  | _ =>
      if (negb (String.eqb (lstrip line) line)
          || mentions "#" body || mentions ";" body || mentions "$" body)%bool
      then None
      else
        match header body with
        | Some name =>
            match add_section cp name with
            | Some cp' => Some (Some name, cp')
            | None => None
            end
        | None =>
            match cursect with
            | None => None
            | Some section =>
                if String.prefix "[" body then None else
                let entry :=
                  match break_at "=" body with
                  | Some (k, v) => (CP.optionxform (rstrip k), Some (lstrip v))
                  | None => (CP.optionxform body, None)
                  end in
                match fst entry with
                | EmptyString => None
                | key =>
                    match add_option cp section key (snd entry) with
                    | Some cp' => Some (cursect, cp')
                    | None => None
                    end
                end
            end
        end
  end.

Fixpoint read_lines (cursect : option string) (cp : ConfigParser)
    (lines : list string) : option ConfigParser :=
  match lines with
  | [] => Some cp
  | line :: rest =>
      match read_line cursect cp line with
      | Some (cursect', cp') => read_lines cursect' cp' rest
      | None => None
      end
  end.

Definition read_file (text : string) : result ConfigParser :=
  match read_lines None empty_document (split_lines text) with
  | Some cp => Ok cp
  | None => Raise (ParsingError text)
  end.

Definition before_get (cp : ConfigParser) (section opt value : string)
    : result string := Ok value.

(** The running example: a tracked file, its private sibling, and a
    sibling that does not parse. *)
Definition master_text : string :=
  "[api]" +:+ nl +:+ "timeout = 30" +:+ nl +:+ "host = example.org" +:+ nl.

Definition local_text : string :=
  "# private overrides" +:+ nl +:+ "[api]" +:+ nl +:+ "timeout = 5" +:+ nl.

Definition broken_text : string := "timeout = 5" +:+ nl.

Definition master_doc : ConfigParser :=
  {| _sections :=
       {[ "api" := {[ "timeout" := Some "30"; "host" := Some "example.org" ]} ]};
     _defaults := ∅ |}.

Definition local_doc : ConfigParser :=
  {| _sections := {[ "api" := {[ "timeout" := Some "5" ]} ]};
     _defaults := ∅ |}.

(** Only the tracked file on disk. *)
Definition fs_master_only : filesystem :=
  {[ "config.cfg" := master_text ]}.

(** Both files on disk. *)
Definition fs_both : filesystem :=
  {[ "config.cfg" := master_text; "config_local.cfg" := local_text ]}.

(** The private file is there but malformed. *)
Definition fs_broken_local : filesystem :=
  {[ "config.cfg" := master_text; "config_local.cfg" := broken_text ]}.

Definition resolver (local : option ConfigParser) : ProsperConfig :=
  {| logger := DEFAULT_LOGGER;
     config_filename := "config.cfg";
     local_config_filename := "config_local.cfg";
     global_config := master_doc;
     local_config := local |}.

End Sample.

(** ** The module [setup] *)

(** [os.path.join] on two components, as [posixpath] has it: an absolute
    second component replaces the first; otherwise the two are glued with
    one separator unless the first is empty or already ends in one. *)
Module Path.

Definition sep : string := "/".

Definition startswith_sep (b : string) : bool := String.prefix sep b.

Fixpoint endswith_sep (s : string) : bool :=
  match s with
  | EmptyString => false
  | String c EmptyString => Ascii.eqb c "/"
  | String _ s' => endswith_sep s'
  end.

Definition join (a b : string) : string :=
  if startswith_sep b then b
  else if (String.eqb a "" || endswith_sep a)%bool then a +:+ b
  else a +:+ sep +:+ b.

End Path.

Section Module_setup.

(** The directory of [setup.py], and the three library calls the helpers
    make: [setuptools.find_packages], [os.listdir] (which raises on a path it
    cannot list) and [os.path.isdir]. *)
Variable HERE : string.
Variable find_packages : string -> list string.
Variable listdir : string -> result (list string).
Variable isdir : string -> bool.

Definition hack_find_packages (include_str : string) : list string :=
  let new_list := [include_str] in
  fold_left
    (fun new_list element => new_list ++ [include_str +:+ "." +:+ element])
    (find_packages include_str) new_list.

(** The body of the inner loop of [include_all_subfiles]. *)
Definition include_file (path_included local_path : string)
    (file_list : list string) (file : string) : list string :=
  let file_abspath := Path.join local_path file in
  if isdir file_abspath then file_list
  else file_list ++ [path_included +:+ "/" +:+ file].

(** The outer loop of [include_all_subfiles], from a given [file_list]. *)
Fixpoint include_all_subfiles_from (file_list : list string)
    (args : list string) : result (list string) :=
  match args with
  | [] => Ok file_list
  | path_included :: rest =>
      let local_path := Path.join HERE path_included in
      match listdir local_path with
      | Raise e => Raise e
      | Ok files =>
          include_all_subfiles_from
            (fold_left (include_file path_included local_path) files file_list)
            rest
      end
  end.

Definition include_all_subfiles (args : list string) : result (list string) :=
  include_all_subfiles_from [] args.

(** What one argument contributes, in closed form: the entries of its
    directory that are not directories, each behind the argument and a
    slash. *)
Definition flat_files (path_included : string) (files : list string)
    : list string :=
  List.map (fun file => path_included +:+ "/" +:+ file)
      (List.filter (fun file =>
                 negb (isdir (Path.join (Path.join HERE path_included) file)))
              files).

End Module_setup.

(** More material for the examples. *)
Module SampleMore.

(** Expansion that declines every value holding a [$]; on the values used
    with it, a reference to an option defined nowhere, that is what
    expansion does. *)
Definition before_get_refs (cp : ConfigParser) (section opt value : string)
    : result string :=
  if Sample.mentions "$" value
  then Raise (InterpolationError opt section)
  else Ok value.

(** A private document whose [timeout] refers to an undefined option. *)
Definition dangling_doc : ConfigParser :=
  {| _sections := {[ "api" := {[ "timeout" := Some "${missing}" ]} ]};
     _defaults := ∅ |}.

(** A tracked file whose name has no [.cfg] in it. *)
Definition fs_ini : filesystem := {[ "settings.ini" := Sample.master_text ]}.

(** An empty disk. *)
Definition fs_empty : filesystem := ∅.

(** Both files, and a third one elsewhere to override with. *)
Definition fs_override : filesystem :=
  {[ "config.cfg" := Sample.master_text;
     "config_local.cfg" := Sample.broken_text;
     "/etc/app.cfg" := Sample.local_text ]}.

Definition HERE : string := "/srv/app".

Definition find_packages (where_ : string) : list string :=
  if String.eqb where_ "prosper" then ["common"; "crest"] else [].

Definition listdir (p : string) : result (list string) :=
  if String.eqb p "/srv/app/docs" then Ok ["index.rst"; "img"; "api.rst"]
  else if String.eqb p "/srv/app/test" then Ok ["logging_test.py"]
  else Raise (FileNotFoundError p).

Definition isdir (p : string) : bool := String.eqb p "/srv/app/docs/img".

End SampleMore.

(** * Properties *)

(** ** [str.replace] *)

Module StrFacts.

Lemma app_nil (s : string) : EmptyString +:+ s = s.
Proof. reflexivity. Qed.

Lemma app_cons (c : ascii) (a s : string) :
  String c a +:+ s = String c (a +:+ s).
Proof. reflexivity. Qed.

Lemma app_nil_r (s : string) : s +:+ EmptyString = s.
Proof.
  induction s as [|c s IH]; [reflexivity|].
  now rewrite app_cons, IH.
Qed.

Lemma prefix_app (old rest : string) : String.prefix old (old +:+ rest) = true.
Proof.
  induction old as [|c old IH].
  - rewrite app_nil. destruct rest; reflexivity.
  - rewrite app_cons. cbn [String.prefix].
    destruct (ascii_dec c c); [exact IH | congruence].
Qed.

(** Once a match is found, the rest of the matched text is dropped. *)
Lemma replace_from_skip (old new x rest : string) :
  Str.replace_from old new (String.length x) (x +:+ rest)
  = Str.replace_from old new 0 rest.
Proof.
  induction x as [|c x IH]; [reflexivity|].
  rewrite app_cons. exact IH.
Qed.

(** The leftmost match is replaced and the scan resumes right after it. *)
Lemma replace_first_match (c : ascii) (old' new a rest : string) :
  let old := String c old' in
  Str.no_match_within old a (old +:+ rest) = true ->
  Str.replace (a +:+ old +:+ rest) old new
  = a +:+ new +:+ Str.replace rest old new.
Proof.
  intros old. unfold Str.replace. subst old.
  induction a as [|d a IH]; intros Hno.
  - rewrite !app_nil, app_cons.
    cbn [Str.replace_from].
    rewrite <- app_cons, prefix_app.
    cbn [String.length Nat.pred].
    now rewrite replace_from_skip.
  - cbn [Str.no_match_within] in Hno.
    apply andb_true_iff in Hno as [Hhere Hno].
    apply negb_true_iff in Hhere.
    rewrite (app_cons d a) in Hhere |- *.
    cbn [Str.replace_from]. rewrite Hhere.
    rewrite (IH Hno). reflexivity.
Qed.

(** A text without a match is returned as it is. *)
Lemma replace_no_match (c : ascii) (old' new a : string) :
  let old := String c old' in
  Str.no_match_within old a EmptyString = true ->
  Str.replace a old new = a.
Proof.
  intros old. unfold Str.replace. subst old.
  induction a as [|d a IH]; intros Hno; [reflexivity|].
  cbn [Str.no_match_within] in Hno.
  apply andb_true_iff in Hno as [Hhere Hno].
  apply negb_true_iff in Hhere.
  rewrite app_nil_r in Hhere.
  cbn [Str.replace_from]. rewrite Hhere. now rewrite (IH Hno).
Qed.

Lemma no_match_of_not_occurs (old a : string) :
  Str.occurs old a = false -> Str.no_match_within old a EmptyString = true.
Proof.
  induction a as [|d a IH]; intros H; [reflexivity|].
  cbn [Str.occurs] in H. apply orb_false_iff in H as [Hhere Hrest].
  cbn [Str.no_match_within]. rewrite app_nil_r, Hhere, (IH Hrest).
  reflexivity.
Qed.

(** A text in which a non-empty [old] does not occur is left alone. *)
Lemma replace_not_occurs (c : ascii) (old' new a : string) :
  Str.occurs (String c old') a = false ->
  Str.replace a (String c old') new = a.
Proof.
  intros H. apply replace_no_match. now apply no_match_of_not_occurs.
Qed.

(** Every occurrence is replaced, not only a trailing extension. *)
Example replace_every_occurrence :
  Str.replace "conf.cfg.d/app.cfg" ".cfg" "_local.cfg"
  = "conf_local.cfg.d/app_local.cfg".
Proof. reflexivity. Qed.

Example replace_nothing :
  Str.replace "settings.ini" ".cfg" "_local.cfg" = "settings.ini".
Proof. reflexivity. Qed.

Example replace_empty_old : Str.replace "ab" "" "-" = "-a-b-".
Proof. reflexivity. Qed.

End StrFacts.

(** ** [get_local_config_filepath] *)

(** The helper in closed form: one probe of the candidate, then the choice. *)
Lemma get_local_config_filepath_eq (fs : filesystem)
    (config_filepath : string) (force_local : bool) :
  get_local_config_filepath fs config_filepath force_local
  = ([IsFile (Str.replace config_filepath ".cfg" "_local.cfg")],
     Ok (if (bool_decide
               (is_Some (fs !! Str.replace config_filepath ".cfg" "_local.cfg"))
             || force_local)%bool
         then Str.replace config_filepath ".cfg" "_local.cfg"
         else config_filepath)).
Proof.
  unfold get_local_config_filepath, isfile, bind, emit, ret.
  cbn [app].
  destruct (bool_decide _ || force_local)%bool; reflexivity.
Qed.

(** C6.  For every master path and force flag, [get_local_config_filepath]
    computes the candidate as the path with each ['.cfg'] replaced by
    ['_local.cfg'] (so ['config.cfg'] gives ['config_local.cfg'], and a path
    whose only ['.cfg'] is its extension gets ['_local'] put before it),
    performs exactly one existence check, on the candidate, and returns the
    candidate if that check succeeds or the force flag is set, and the master
    path unchanged otherwise. *)
Theorem get_local_config_filepath_spec :
  forall (fs : filesystem) (config_filepath : string) (force_local : bool),
    let candidate := Str.replace config_filepath ".cfg" "_local.cfg" in
    get_local_config_filepath fs config_filepath force_local
    = ([IsFile candidate],
       Ok (if (bool_decide (is_Some (fs !! candidate)) || force_local)%bool
           then candidate else config_filepath))
    /\ Str.replace "config.cfg" ".cfg" "_local.cfg" = "config_local.cfg"
    /\ (forall stem,
          Str.no_match_within ".cfg" stem ".cfg" = true ->
          Str.replace (stem +:+ ".cfg") ".cfg" "_local.cfg"
          = stem +:+ "_local.cfg").
Proof.
  intros fs config_filepath force_local candidate.
  split; [|split].
  - apply get_local_config_filepath_eq.
  - reflexivity.
  - intros stem Hstem.
    change (stem +:+ ".cfg") with (stem +:+ ".cfg" +:+ EmptyString).
    rewrite (StrFacts.replace_first_match "." "cfg" "_local.cfg" stem
               EmptyString Hstem).
    reflexivity.
Qed.

(** ** Lookups in a document *)

Section Lookup.

Variable before_get :
  ConfigParser -> string -> string -> string -> result string.

(** A pair that is not present makes [cp[section][key]] raise [KeyError]. *)
Lemma getitem_missing (cp : ConfigParser) (section key : string) :
  CP.contains cp section key = false ->
  exists k, CP.getitem before_get cp section key = Raise (KeyError k).
Proof.
  unfold CP.contains, CP.getitem. intros H.
  destruct (String.eqb section CP.default_section) eqn:Hd; cbn in H |- *.
  - rewrite H. cbn. eauto.
  - destruct (CP.has_section cp section); cbn in H |- *; [|eauto].
    rewrite H. cbn. eauto.
Qed.

(** For a pair that is present the two membership tests pass and the
    lookup is [get]. *)
Lemma getitem_present (cp : ConfigParser) (section key : string) :
  CP.contains cp section key = true ->
  CP.getitem before_get cp section key = CP.get before_get cp section key.
Proof.
  unfold CP.contains, CP.getitem. intros H.
  apply andb_true_iff in H as [Hs Ho]. rewrite Ho. cbn.
  destruct (String.eqb section CP.default_section); cbn in Hs |- *;
    [reflexivity|].
  now rewrite Hs.
Qed.

(** [get] on a present pair finds a stored entry: it never fails for want
    of a section or an option, only when expanding the value does. *)
Lemma get_present (cp : ConfigParser) (section key : string) :
  CP.contains cp section key = true ->
  exists d raw,
    CP._unify_values cp section = Ok d
    /\ d !! CP.optionxform key = Some raw
    /\ CP.get before_get cp section key
       = match raw with
         | None => Ok None
         | Some value =>
             match before_get cp section (CP.optionxform key) value with
             | Ok s => Ok (Some s)
             | Raise e => Raise e
             end
         end.
Proof.
  unfold CP.contains, CP.has_section, CP.has_option, CP.get, CP._unify_values.
  intros H. apply andb_true_iff in H as [Hs Ho].
  destruct (_sections cp !! section) as [sd|] eqn:Hsec.
  - exists (sd ∪ _defaults cp).
    assert (Hin : is_Some ((sd ∪ _defaults cp) !! CP.optionxform key)).
    { destruct (String.eqb section "" || String.eqb section CP.default_section)%bool.
      - apply bool_decide_eq_true in Ho as [v Hv].
        destruct (sd !! CP.optionxform key) as [w|] eqn:Hw.
        + exists w. now apply lookup_union_Some_l.
        + exists v. rewrite lookup_union_r; auto.
      - apply orb_true_iff in Ho as [Ho|Ho];
          apply bool_decide_eq_true in Ho as [v Hv].
        + exists v. now apply lookup_union_Some_l.
        + destruct (sd !! CP.optionxform key) as [w|] eqn:Hw.
          * exists w. now apply lookup_union_Some_l.
          * exists v. rewrite lookup_union_r; auto. }
    destruct Hin as [raw Hraw]. exists raw. rewrite Hraw.
    repeat split; destruct raw; reflexivity.
  - assert (Hn : bool_decide
                   (is_Some (@None (gmap string (option string)))) = false).
    { apply bool_decide_eq_false. intros [? ?]; congruence. }
    rewrite Hn, orb_false_r in Hs.
    rewrite Hs in Ho |- *. rewrite orb_true_r in Ho.
    apply bool_decide_eq_true in Ho as [v Hv].
    exists (∅ ∪ _defaults cp), v.
    assert (Hl : (∅ ∪ _defaults cp) !! CP.optionxform key = Some v).
    { rewrite lookup_union_r; auto. }
    rewrite Hl. repeat split; destruct v; reflexivity.
Qed.

End Lookup.

(** ** [ProsperConfig.get_option] *)

Section Resolver.

Variable before_get :
  ConfigParser -> string -> string -> string -> result string.

(** Tier 2 hit: the local document answers. *)
Lemma get_option_local_hit (self : ProsperConfig) (local : ConfigParser)
    (section_name key_name : string) (args_option args_default : pyval)
    (v : option string) :
  local_config self = Some local ->
  CP.getitem before_get local section_name key_name = Ok v ->
  py_ne args_option args_default = false ->
  get_option before_get self section_name key_name args_option args_default
  = ([Log (logger self) DEBUG "picking config";
      Log (logger self) DEBUG "-- using local config"],
     Ok (pyval_of v)).
Proof.
  intros Hlocal Hv Hne.
  unfold get_option. rewrite Hne, Hlocal.
  unfold subscript, lift. rewrite Hv. reflexivity.
Qed.

(** Tier 2 miss on a loaded local document: the [KeyError] is caught and
    the master document is consulted. *)
Lemma get_option_local_miss (self : ProsperConfig) (local : ConfigParser)
    (section_name key_name : string) (args_option args_default : pyval) :
  local_config self = Some local ->
  CP.contains local section_name key_name = false ->
  py_ne args_option args_default = false ->
  get_option before_get self section_name key_name args_option args_default
  = match CP.getitem before_get (global_config self) section_name key_name with
    | Ok v =>
        ([Log (logger self) DEBUG "picking config";
          Log (logger self) DEBUG
            ((section_name +:+ "." +:+ key_name) +:+ "not found in local config");
          Log (logger self) DEBUG "-- using global config"],
         Ok (pyval_of v))
    | Raise (KeyError _) =>
        ([Log (logger self) DEBUG "picking config";
          Log (logger self) DEBUG
            ((section_name +:+ "." +:+ key_name) +:+ "not found in local config");
          Log (logger self) WARNING
            ((section_name +:+ "." +:+ key_name) +:+ "not found in global config");
          Log (logger self) DEBUG "-- using default argument"],
         Ok args_default)
    | Raise e =>
        ([Log (logger self) DEBUG "picking config";
          Log (logger self) DEBUG
            ((section_name +:+ "." +:+ key_name) +:+ "not found in local config")],
         Raise e)
    end.
Proof.
  intros Hlocal Hmiss Hne.
  destruct (getitem_missing before_get _ _ _ Hmiss) as [k Hk].
  unfold get_option. rewrite Hne, Hlocal.
  unfold subscript, lift. rewrite Hk.
  destruct (CP.getitem before_get (global_config self) section_name key_name) as [v|e];
    [reflexivity|].
  destruct e; reflexivity.
Qed.

(** With no local document the first lookup subscripts [None]; the
    [TypeError] is not a [KeyError] and escapes. *)
Lemma get_option_no_local_document (self : ProsperConfig)
    (section_name key_name : string) (args_option args_default : pyval) :
  local_config self = None ->
  py_ne args_option args_default = false ->
  get_option before_get self section_name key_name args_option args_default
  = ([Log (logger self) DEBUG "picking config"],
     Raise (TypeError "'NoneType' object is not subscriptable")).
Proof.
  intros Hlocal Hne.
  unfold get_option. rewrite Hne, Hlocal. reflexivity.
Qed.

(** C1.  Whenever the runtime value differs from the fallback default
    ([args_option != args_default]), [get_option] returns the runtime value
    itself, after two debug records and without consulting either document,
    whatever the local and master documents hold under the pair. *)
Theorem get_option_runtime_dominates :
  forall (self : ProsperConfig) (section_name key_name : string)
         (args_option args_default : pyval),
    py_ne args_option args_default = true ->
    get_option before_get self section_name key_name args_option args_default
    = ([Log (logger self) DEBUG "picking config";
        Log (logger self) DEBUG "-- using function args"],
       Ok args_option).
Proof.
  intros self section_name key_name args_option args_default Hne.
  unfold get_option. rewrite Hne. reflexivity.
Qed.

(** C2, as the code has it.  For a pair present in both the local and the
    master document, [get_option] called without a runtime override (runtime
    value equal to the default) resolves the pair from the local document: the
    entry stored there is found, a key without value gives [None], and a
    stored text is expanded and returned, whatever the master holds.  When
    expanding the local text fails, that error is raised and the master is not
    consulted; only a [KeyError] would be taken for a miss and send the lookup
    on to the master. *)
Theorem get_option_local_precedence :
  forall (self : ProsperConfig) (local : ConfigParser)
         (section_name key_name : string) (args_option args_default : pyval),
    local_config self = Some local ->
    CP.contains local section_name key_name = true ->
    CP.contains (global_config self) section_name key_name = true ->
    py_ne args_option args_default = false ->
    exists entries raw,
      CP._unify_values local section_name = Ok entries
      /\ entries !! CP.optionxform key_name = Some raw
      /\ outcome (get_option before_get self section_name key_name
                    args_option args_default)
         = match raw with
           | None => Ok PyNone
           | Some value =>
               match before_get local section_name
                       (CP.optionxform key_name) value with
               | Ok text => Ok (PyStr text)
               | Raise (KeyError _) =>
                   match CP.get before_get (global_config self)
                           section_name key_name with
                   | Ok v => Ok (pyval_of v)
                   | Raise (KeyError _) => Ok args_default
                   | Raise e => Raise e
                   end
               | Raise e => Raise e
               end
           end.
Proof.
  intros self local section_name key_name args_option args_default
    Hlocal Hl Hg Hne.
  destruct (get_present before_get local section_name key_name Hl)
    as (entries & raw & Hentries & Hraw & Hget).
  exists entries, raw. split; [exact Hentries|]. split; [exact Hraw|].
  unfold get_option, subscript, lift. rewrite Hne, Hlocal.
  rewrite (getitem_present before_get local _ _ Hl), Hget.
  rewrite (getitem_present before_get (global_config self) _ _ Hg).
  destruct raw as [value|]; [|reflexivity].
  destruct (before_get local section_name (CP.optionxform key_name) value)
    as [text|[]]; try reflexivity.
  destruct (CP.get before_get (global_config self) section_name key_name)
    as [v|[]]; reflexivity.
Qed.

(** C4, as the code has it.  For a pair absent from both the local and the
    master document, [get_option] called with a runtime value equal to the
    fallback default returns that default itself, of whatever type, after
    recording both misses. *)
Theorem get_option_returns_default :
  forall (self : ProsperConfig) (local : ConfigParser)
         (section_name key_name : string) (args_option args_default : pyval),
    local_config self = Some local ->
    CP.contains local section_name key_name = false ->
    CP.contains (global_config self) section_name key_name = false ->
    py_ne args_option args_default = false ->
    get_option before_get self section_name key_name args_option args_default
    = ([Log (logger self) DEBUG "picking config";
        Log (logger self) DEBUG
          ((section_name +:+ "." +:+ key_name) +:+ "not found in local config");
        Log (logger self) WARNING
          ((section_name +:+ "." +:+ key_name) +:+ "not found in global config");
        Log (logger self) DEBUG "-- using default argument"],
       Ok args_default).
Proof.
  intros self local section_name key_name args_option args_default
    Hlocal Hl Hg Hne.
  rewrite (get_option_local_miss self local _ _ _ _ Hlocal Hl Hne).
  destruct (getitem_missing before_get _ _ _ Hg) as [k ->]. reflexivity.
Qed.

(** The master tier on a loaded local document: a pair the local document
    lacks and the master holds resolves to the master's value. *)
Lemma get_option_master_fallback (self : ProsperConfig) (local : ConfigParser)
    (section_name key_name : string) (args_option args_default : pyval)
    (v : option string) :
  local_config self = Some local ->
  CP.contains local section_name key_name = false ->
  CP.getitem before_get (global_config self) section_name key_name = Ok v ->
  py_ne args_option args_default = false ->
  outcome (get_option before_get self section_name key_name args_option args_default)
  = Ok (pyval_of v).
Proof.
  intros Hlocal Hl Hv Hne.
  rewrite (get_option_local_miss self local _ _ _ _ Hlocal Hl Hne), Hv.
  reflexivity.
Qed.

(** On loaded documents a missing pair never makes [get_option] raise,
    whatever the runtime value and the default. *)
Lemma get_option_returns_on_missing (self : ProsperConfig)
    (local : ConfigParser) (section_name key_name : string)
    (args_option args_default : pyval) :
  local_config self = Some local ->
  CP.contains local section_name key_name = false ->
  CP.contains (global_config self) section_name key_name = false ->
  returns (get_option before_get self section_name key_name
             args_option args_default).
Proof.
  intros Hlocal Hl Hg.
  destruct (py_ne args_option args_default) eqn:Hne.
  - exists args_option. unfold get_option. now rewrite Hne.
  - exists args_default.
    rewrite (get_option_local_miss self local _ _ _ _ Hlocal Hl Hne).
    now destruct (getitem_missing before_get _ _ _ Hg) as [k ->].
Qed.

(** [attach_logger] swaps the sink and nothing else: lookups resolve as
    before. *)
Lemma attach_logger_get_option (self : ProsperConfig) (new_logger : string)
    (section_name key_name : string) (args_option args_default : pyval) :
  outcome (get_option before_get (attach_logger self new_logger)
             section_name key_name args_option args_default)
  = outcome (get_option before_get self
               section_name key_name args_option args_default).
Proof.
  unfold get_option, attach_logger, debug, warning.
  cbn [logger local_config global_config].
  destruct (py_ne args_option args_default); [reflexivity|].
  unfold subscript, lift.
  destruct (local_config self) as [local|]; [|reflexivity].
  destruct (CP.getitem before_get local section_name key_name) as [v|e];
    [reflexivity|].
  destruct e; try reflexivity.
  destruct (CP.getitem before_get (global_config self) section_name key_name)
    as [v|e]; [reflexivity|].
  destruct e; reflexivity.
Qed.

End Resolver.

(** ** The loaders and the constructor *)

Section Loader.

Variable read_file : string -> result ConfigParser.

(** Opening and parsing one file: one [Open] event; a missing file raises
    [FileNotFoundError], otherwise the parser decides. *)
Lemma load_spec (fs : filesystem) (filepath : string) :
  load read_file fs filepath
  = ([Open filepath],
     match fs !! filepath with
     | Some text => read_file text
     | None => Raise (FileNotFoundError filepath)
     end).
Proof.
  unfold load, open, bind, emit, ret, raise, lift; simpl.
  destruct (fs !! filepath); reflexivity.
Qed.

(** What [get_configs] does, by the outcome of the two loads. *)
Lemma get_configs_spec (fs : filesystem) (config_filepath : string)
    (local_filepath_override : option string) :
  let candidate := Str.replace config_filepath ".cfg" "_local.cfg" in
  let local_filepath := local_source config_filepath local_filepath_override in
  get_configs read_file fs config_filepath local_filepath_override
  = match outcome (load read_file fs config_filepath) with
    | Raise e => ([Open config_filepath], Raise e)
    | Ok global =>
        match outcome (load read_file fs local_filepath) with
        | Ok local =>
            ([Open config_filepath; IsFile candidate; Open local_filepath],
             Ok (global, Some local))
        | Raise e =>
            if is_IOError e
            then ([Open config_filepath; IsFile candidate; Open local_filepath;
                   Warn UserWarning
                     ("No " +:+ local_filepath +:+ " found in path")],
                  Ok (global, None))
            else ([Open config_filepath; IsFile candidate; Open local_filepath],
                  Raise e)
        end
    end.
Proof.
  intros candidate local_filepath.
  unfold local_source in local_filepath. fold candidate in local_filepath.
  unfold get_configs.
  rewrite get_local_config_filepath_eq.
  rewrite orb_true_r. fold candidate. clearbody candidate.
  rewrite !load_spec. unfold outcome; cbn [snd].
  destruct (fs !! config_filepath) as [text|]; [|reflexivity].
  destruct (read_file text) as [global|e]; [|reflexivity].
  cbn. rewrite load_spec. fold local_filepath.
  clearbody local_filepath.
  destruct (fs !! local_filepath) as [ltext|]; [|reflexivity].
  destruct (read_file ltext) as [local|e]; [reflexivity|].
  destruct e; reflexivity.
Qed.

(** What the constructor does, by the outcome of the two loads. *)
Lemma init_spec (fs : filesystem) (config_filename : string)
    (local_filepath_override : option string) (logger : string) :
  let candidate := Str.replace config_filename ".cfg" "_local.cfg" in
  let local_filepath := local_source config_filename local_filepath_override in
  let recorded :=
    if truthy local_filepath_override
    then default "" local_filepath_override
    else if bool_decide (is_Some (fs !! candidate))
         then candidate else config_filename in
  let instance global local :=
    {| logger := logger;
       config_filename := config_filename;
       local_config_filename := recorded;
       global_config := global;
       local_config := local |} in
  __init__ read_file fs config_filename local_filepath_override logger
  = match outcome (load read_file fs config_filename) with
    | Raise e => ([IsFile candidate; Open config_filename], Raise e)
    | Ok global =>
        match outcome (load read_file fs local_filepath) with
        | Ok local =>
            ([IsFile candidate; Open config_filename; IsFile candidate;
              Open local_filepath],
             Ok (instance global (Some local)))
        | Raise e =>
            if is_IOError e
            then ([IsFile candidate; Open config_filename; IsFile candidate;
                   Open local_filepath;
                   Warn UserWarning
                     ("No " +:+ local_filepath +:+ " found in path")],
                  Ok (instance global None))
            else ([IsFile candidate; Open config_filename; IsFile candidate;
                   Open local_filepath],
                  Raise e)
        end
    end.
Proof.
  intros candidate local_filepath recorded instance.
  unfold __init__.
  rewrite get_local_config_filepath_eq.
  rewrite orb_false_r. fold candidate.
  rewrite get_configs_spec. fold candidate local_filepath.
  subst instance. cbv beta.
  unfold bind at 1. fold recorded.
  clearbody recorded local_filepath candidate.
  destruct (outcome (load read_file fs config_filename)) as [global|e];
    [|reflexivity].
  destruct (outcome (load read_file fs local_filepath)) as [local|e];
    [reflexivity|].
  destruct (is_IOError e); reflexivity.
Qed.

(** C7, as the code has it.  Construction fails when loading the master
    document fails, with that error, and also when the local file can be
    opened but does not parse; when the master loads and the local file does
    not exist, construction succeeds, one warning ["No <path> found in path"]
    goes to the warning channel and the local document is [None]; when both
    load, both documents are kept. *)
Theorem construction_outcome :
  forall (fs : filesystem) (config_filename : string)
         (local_filepath_override : option string) (logger : string),
    let local_filepath :=
      local_source config_filename local_filepath_override in
    let init :=
      __init__ read_file fs config_filename local_filepath_override logger in
    let absent global :=
      (exists self, outcome init = Ok self
                    /\ global_config self = global
                    /\ local_config self = None)
      /\ In (Warn UserWarning ("No " +:+ local_filepath +:+ " found in path"))
            (trace init) in
    match outcome (load read_file fs config_filename) with
    | Raise e => outcome init = Raise e
    | Ok global =>
        match fs !! local_filepath with
        | None => absent global
        | Some text =>
            match read_file text with
            | Ok local =>
                exists self, outcome init = Ok self
                             /\ global_config self = global
                             /\ local_config self = Some local
            | Raise e =>
                if is_IOError e then absent global else outcome init = Raise e
            end
        end
    end.
Proof.
  intros fs config_filename local_filepath_override logger
    local_filepath init absent.
  subst init absent. cbv beta.
  rewrite init_spec. fold local_filepath.
  destruct (outcome (load read_file fs config_filename)) as [global|e];
    [|reflexivity].
  rewrite load_spec.
  destruct (fs !! local_filepath) as [text|].
  - destruct (read_file text) as [local|e]; observe.
    + eexists. split; [reflexivity|]. split; reflexivity.
    + destruct (is_IOError e); observe; [|reflexivity].
      split.
      * eexists. split; [reflexivity|]. split; reflexivity.
      * do 4 right. now left.
  - observe. split.
    + eexists. split; [reflexivity|]. split; reflexivity.
    + do 4 right. now left.
Qed.

(** C8, as the code has it.  When the master file loads, no override path
    is given and the derived local file is not on disk, [get_configs] still
    tries the derived path (selection is forced), catches the failure, emits
    a warning and returns the master document with [None] for the local one;
    the master path is opened once, as the master. *)
Theorem get_configs_missing_local :
  forall (fs : filesystem) (config_filepath : string)
         (local_filepath_override : option string)
         (text : string) (global : ConfigParser),
    let candidate := Str.replace config_filepath ".cfg" "_local.cfg" in
    truthy local_filepath_override = false ->
    fs !! config_filepath = Some text ->
    read_file text = Ok global ->
    fs !! candidate = None ->
    get_configs read_file fs config_filepath local_filepath_override
    = ([Open config_filepath; IsFile candidate; Open candidate;
        Warn UserWarning ("No " +:+ candidate +:+ " found in path")],
       Ok (global, None)).
Proof.
  intros fs config_filepath local_filepath_override text global candidate
    Hover Hmaster Hparse Hlocal.
  rewrite get_configs_spec. unfold local_source. rewrite Hover.
  fold candidate. rewrite !load_spec. unfold outcome; cbn [snd].
  rewrite Hmaster, Hparse, Hlocal. reflexivity.
Qed.

(** C9.  Every call of [get_config] first emits a [DeprecationWarning], then
    probes the derived local path once and opens exactly one file: the
    master path when the flag is set, and otherwise the path
    [get_local_config_filepath] picks without forcing (the derived local
    file when it is on disk, else the master); its result is the document
    parsed from that file, or the error of opening or parsing it. *)
Theorem get_config_spec :
  forall (fs : filesystem) (config_filepath : string) (local_override : bool),
    let candidate := Str.replace config_filepath ".cfg" "_local.cfg" in
    let real_config_filepath :=
      if local_override then config_filepath
      else if bool_decide (is_Some (fs !! candidate))
           then candidate else config_filepath in
    get_config read_file fs config_filepath local_override
    = ([Warn DeprecationWarning
          "prosper.common.prosper_configreplaced with ProsperConfig";
        IsFile candidate;
        Open real_config_filepath],
       match fs !! real_config_filepath with
       | Some text => read_file text
       | None => Raise (FileNotFoundError real_config_filepath)
       end).
Proof.
  intros fs config_filepath local_override candidate real_config_filepath.
  unfold get_config.
  rewrite get_local_config_filepath_eq.
  rewrite orb_false_r. fold candidate.
  unfold bind at 2. cbv beta iota.
  change (if local_override then config_filepath
          else if bool_decide (is_Some (fs !! candidate))
               then candidate else config_filepath)
    with real_config_filepath.
  rewrite load_spec. reflexivity.
Qed.

(** C10.  Without a local-path override, a constructed resolver records as
    its local filename what [get_local_config_filepath] returns without the
    force flag.  So when the master loads and the derived [_local.cfg] file
    is not on disk, construction succeeds, the recorded local filename is
    the master path, and the loader nevertheless tried to open the derived
    path, which differs from the recorded one. *)
Theorem init_records_unforced_local_path :
  forall (fs : filesystem) (config_filename : string)
         (local_filepath_override : option string) (logger : string),
    let candidate := Str.replace config_filename ".cfg" "_local.cfg" in
    let init :=
      __init__ read_file fs config_filename local_filepath_override logger in
    truthy local_filepath_override = false ->
    (forall self,
        outcome init = Ok self ->
        outcome (get_local_config_filepath fs config_filename false)
        = Ok (local_config_filename self))
    /\ (forall text global,
          fs !! config_filename = Some text ->
          read_file text = Ok global ->
          fs !! candidate = None ->
          exists self,
            outcome init = Ok self
            /\ local_config_filename self = config_filename
            /\ In (Open candidate) (trace init)
            /\ candidate <> local_config_filename self).
Proof.
  intros fs config_filename local_filepath_override logger candidate init
    Hover.
  subst init. rewrite init_spec. unfold local_source. rewrite Hover.
  fold candidate. split.
  - intros self Hself.
    rewrite get_local_config_filepath_eq.
    rewrite orb_false_r. fold candidate. unfold outcome at 1; cbn [snd].
    destruct (outcome (load read_file fs config_filename)) as [global|e];
      [|discriminate].
    destruct (outcome (load read_file fs candidate)) as [local|e].
    + injection Hself as <-. reflexivity.
    + destruct (is_IOError e); [|discriminate].
      injection Hself as <-. reflexivity.
  - intros text global Hmaster Hparse Hlocal.
    assert (Hnone : bool_decide (is_Some (fs !! candidate)) = false).
    { apply bool_decide_eq_false. rewrite Hlocal. intros [? ?]; discriminate. }
    rewrite Hnone, !load_spec, Hmaster, Hparse, Hlocal. observe.
    eexists. split; [reflexivity|]. cbn [local_config_filename].
    split; [reflexivity|]. split.
    + do 3 right. now left.
    + intros Heq. rewrite Heq, Hmaster in Hlocal. discriminate.
Qed.

End Loader.

(** ** The running example *)

(** The reader and the hand-written documents agree. *)
Example read_master : Sample.read_file Sample.master_text = Ok Sample.master_doc.
Proof. vm_compute. reflexivity. Qed.

Example read_local : Sample.read_file Sample.local_text = Ok Sample.local_doc.
Proof. vm_compute. reflexivity. Qed.

Example read_broken :
  Sample.read_file Sample.broken_text = Raise (ParsingError Sample.broken_text).
Proof. vm_compute. reflexivity. Qed.

(** The helper on a disk without the private file: unforced it gives the
    master path back, forced it gives the candidate. *)
Lemma get_local_config_filepath_spec_witness :
  get_local_config_filepath Sample.fs_master_only "config.cfg" false
  = ([IsFile "config_local.cfg"], Ok "config.cfg")
  /\ get_local_config_filepath Sample.fs_master_only "config.cfg" true
     = ([IsFile "config_local.cfg"], Ok "config_local.cfg")
  /\ Str.replace ("config" +:+ ".cfg") ".cfg" "_local.cfg"
     = "config" +:+ "_local.cfg".
Proof.
  split; [|split].
  - exact (proj1 (get_local_config_filepath_spec
                    Sample.fs_master_only "config.cfg" false)).
  - exact (proj1 (get_local_config_filepath_spec
                    Sample.fs_master_only "config.cfg" true)).
  - apply (proj2 (proj2 (get_local_config_filepath_spec
                           Sample.fs_master_only "config.cfg" false))).
    reflexivity.
Defined.

(** [get_option('api', 'timeout', 99, None)] with [timeout] set in both
    files. *)
Lemma get_option_runtime_dominates_witness :
  CP.contains Sample.local_doc "api" "timeout" = true
  /\ CP.contains Sample.master_doc "api" "timeout" = true
  /\ get_option Sample.before_get (Sample.resolver (Some Sample.local_doc))
       "api" "timeout" (PyInt 99) PyNone
     = ([Log "NULL" DEBUG "picking config";
         Log "NULL" DEBUG "-- using function args"],
        Ok (PyInt 99)).
Proof.
  split; [reflexivity|]. split; [reflexivity|].
  apply (get_option_runtime_dominates Sample.before_get
           (Sample.resolver (Some Sample.local_doc))
           "api" "timeout" (PyInt 99) PyNone).
  reflexivity.
Defined.

(** [get_option('api', 'timeout', None, None)] with master [30] and local
    [5]: the stored local text is found and returned. *)
Lemma get_option_local_precedence_witness :
  (exists entries raw,
      CP._unify_values Sample.local_doc "api" = Ok entries
      /\ entries !! CP.optionxform "timeout" = Some raw
      /\ outcome (get_option Sample.before_get
                    (Sample.resolver (Some Sample.local_doc))
                    "api" "timeout" PyNone PyNone)
         = match raw with
           | None => Ok PyNone
           | Some value =>
               match Sample.before_get Sample.local_doc "api"
                       (CP.optionxform "timeout") value with
               | Ok text => Ok (PyStr text)
               | Raise (KeyError _) =>
                   match CP.get Sample.before_get
                           (global_config
                              (Sample.resolver (Some Sample.local_doc)))
                           "api" "timeout" with
                   | Ok v => Ok (pyval_of v)
                   | Raise (KeyError _) => Ok PyNone
                   | Raise e => Raise e
                   end
               | Raise e => Raise e
               end
           end)
  /\ CP.getitem Sample.before_get Sample.master_doc "api" "timeout"
     = Ok (Some "30")
  /\ outcome (get_option Sample.before_get
                (Sample.resolver (Some Sample.local_doc))
                "api" "timeout" PyNone PyNone)
     = Ok (PyStr "5").
Proof.
  split; [|split; reflexivity].
  apply (get_option_local_precedence Sample.before_get
           (Sample.resolver (Some Sample.local_doc)) Sample.local_doc
           "api" "timeout" PyNone PyNone);
    reflexivity.
Defined.

(** C2, as stated, fails: [timeout] is present in both documents, but the
    private value refers to an option defined nowhere; the lookup raises
    instead of returning a value, and the master's [30] is not used. *)
Lemma get_option_local_value_fails_to_expand :
  CP.contains SampleMore.dangling_doc "api" "timeout" = true
  /\ CP.contains Sample.master_doc "api" "timeout" = true
  /\ py_ne PyNone PyNone = false
  /\ outcome (get_option SampleMore.before_get_refs
                (Sample.resolver (Some SampleMore.dangling_doc))
                "api" "timeout" PyNone PyNone)
     = Raise (InterpolationError "timeout" "api")
  /\ (forall v,
         outcome (get_option SampleMore.before_get_refs
                    (Sample.resolver (Some SampleMore.dangling_doc))
                    "api" "timeout" PyNone PyNone)
         <> Ok v).
Proof.
  do 4 (split; [reflexivity|]).
  intros v. discriminate.
Qed.

(** C4, as stated, fails: [get_option('api', 'retries', None, 3)] with
    [retries] in neither document returns [None], not [3], because [None]
    differs from [3] and so counts as a runtime override. *)
Lemma get_option_retries_None_3 :
  CP.contains Sample.local_doc "api" "retries" = false
  /\ CP.contains Sample.master_doc "api" "retries" = false
  /\ outcome (get_option Sample.before_get
                (Sample.resolver (Some Sample.local_doc))
                "api" "retries" PyNone (PyInt 3))
     = Ok PyNone
  /\ outcome (get_option Sample.before_get
                (Sample.resolver (Some Sample.local_doc))
                "api" "retries" PyNone (PyInt 3))
     <> Ok (PyInt 3).
Proof.
  split; [reflexivity|]. split; [reflexivity|]. split; [reflexivity|].
  discriminate.
Qed.

(** [get_option('api', 'retries', 3, 3)]: nothing overrides, the default
    comes back. *)
Lemma get_option_returns_default_witness :
  outcome (get_option Sample.before_get
             (Sample.resolver (Some Sample.local_doc))
             "api" "retries" (PyInt 3) (PyInt 3))
  = Ok (PyInt 3).
Proof.
  rewrite (get_option_returns_default Sample.before_get
             (Sample.resolver (Some Sample.local_doc)) Sample.local_doc
             "api" "retries" (PyInt 3) (PyInt 3)
             eq_refl eq_refl eq_refl eq_refl).
  reflexivity.
Defined.

(** The default that comes back is the object passed as default: [True]
    equals [1], and [1] is returned. *)
Example get_option_default_keeps_type :
  outcome (get_option Sample.before_get
             (Sample.resolver (Some Sample.local_doc))
             "api" "retries" (PyBool true) (PyInt 1))
  = Ok (PyInt 1).
Proof. reflexivity. Qed.

(** C3.  A resolver built from a master file with no local sibling holds
    [None] as local document, and a lookup of a missing option then raises
    [TypeError] instead of falling through to the default. *)
Theorem get_option_raises_without_local_document :
  outcome (self <- __init__ Sample.read_file Sample.fs_master_only
                     "config.cfg" None DEFAULT_LOGGER ;;
           get_option Sample.before_get self "api" "retries" PyNone PyNone)
  = Raise (TypeError "'NoneType' object is not subscriptable").
Proof. vm_compute. reflexivity. Qed.

(** C5.  With no local document, a pair the master document holds is not
    resolved to the master's value: the lookup raises [TypeError] before the
    master is consulted. *)
Theorem get_option_master_unreached_without_local_document :
  CP.getitem Sample.before_get Sample.master_doc "api" "host"
  = Ok (Some "example.org")
  /\ get_option Sample.before_get (Sample.resolver None)
       "api" "host" PyNone PyNone
     = ([Log "NULL" DEBUG "picking config"],
        Raise (TypeError "'NoneType' object is not subscriptable")).
Proof. split; reflexivity. Qed.

(** The part of C5 that holds: with a local document that lacks the pair,
    the master's value is returned. *)
Example get_option_master_fallback_example :
  outcome (get_option Sample.before_get
             (Sample.resolver (Some Sample.local_doc))
             "api" "host" PyNone PyNone)
  = Ok (PyStr "example.org").
Proof.
  apply (get_option_master_fallback Sample.before_get
           (Sample.resolver (Some Sample.local_doc)) Sample.local_doc
           "api" "host" PyNone PyNone (Some "example.org"));
    reflexivity.
Qed.

(** C7, as stated, fails: with a master file that loads and a local file
    that is present but malformed, construction raises. *)
Lemma construction_fails_though_master_loads :
  ~ (raises (__init__ Sample.read_file Sample.fs_broken_local
               "config.cfg" None DEFAULT_LOGGER)
     <-> raises (load Sample.read_file Sample.fs_broken_local "config.cfg")).
Proof.
  intros [Hfail _].
  assert (Hinit : raises (__init__ Sample.read_file Sample.fs_broken_local
                            "config.cfg" None DEFAULT_LOGGER)).
  { exists (ParsingError Sample.broken_text). vm_compute. reflexivity. }
  destruct (Hfail Hinit) as [e He].
  vm_compute in He. discriminate He.
Qed.

(** Construction on the disk without the private file, and on the disk
    with a malformed one. *)
Lemma construction_outcome_witness :
  ((exists self,
       outcome (__init__ Sample.read_file Sample.fs_master_only
                  "config.cfg" None DEFAULT_LOGGER) = Ok self
       /\ global_config self = Sample.master_doc
       /\ local_config self = None)
   /\ In (Warn UserWarning "No config_local.cfg found in path")
         (trace (__init__ Sample.read_file Sample.fs_master_only
                   "config.cfg" None DEFAULT_LOGGER)))
  /\ outcome (__init__ Sample.read_file Sample.fs_broken_local
                "config.cfg" None DEFAULT_LOGGER)
     = Raise (ParsingError Sample.broken_text).
Proof.
  split.
  - exact (construction_outcome Sample.read_file Sample.fs_master_only
             "config.cfg" None DEFAULT_LOGGER).
  - exact (construction_outcome Sample.read_file Sample.fs_broken_local
             "config.cfg" None DEFAULT_LOGGER).
Defined.

(** C8, as stated, fails: with only [config.cfg] on disk, [get_configs]
    does not read the master file a second time as the local document; the
    local document is [None]. *)
Lemma get_configs_no_master_fallback :
  Sample.fs_master_only !! "config_local.cfg" = None
  /\ get_configs Sample.read_file Sample.fs_master_only "config.cfg" None
     = ([Open "config.cfg"; IsFile "config_local.cfg";
         Open "config_local.cfg";
         Warn UserWarning "No config_local.cfg found in path"],
        Ok (Sample.master_doc, None))
  /\ outcome (get_configs Sample.read_file Sample.fs_master_only
                "config.cfg" None)
     <> Ok (Sample.master_doc, Some Sample.master_doc).
Proof.
  split; [reflexivity|].
  assert (H : get_configs Sample.read_file Sample.fs_master_only
                "config.cfg" None
              = ([Open "config.cfg"; IsFile "config_local.cfg";
                  Open "config_local.cfg";
                  Warn UserWarning "No config_local.cfg found in path"],
                 Ok (Sample.master_doc, None))).
  { vm_compute. reflexivity. }
  split; [exact H|]. rewrite H. discriminate.
Qed.

Lemma get_configs_missing_local_witness :
  get_configs Sample.read_file Sample.fs_master_only "config.cfg" None
  = ([Open "config.cfg"; IsFile "config_local.cfg"; Open "config_local.cfg";
      Warn UserWarning "No config_local.cfg found in path"],
     Ok (Sample.master_doc, None)).
Proof.
  apply (get_configs_missing_local Sample.read_file Sample.fs_master_only
           "config.cfg" None Sample.master_text Sample.master_doc);
    vm_compute; reflexivity.
Defined.

Lemma init_records_unforced_local_path_witness :
  exists self,
    outcome (__init__ Sample.read_file Sample.fs_master_only
               "config.cfg" None DEFAULT_LOGGER) = Ok self
    /\ local_config_filename self = "config.cfg"
    /\ In (Open "config_local.cfg")
          (trace (__init__ Sample.read_file Sample.fs_master_only
                    "config.cfg" None DEFAULT_LOGGER))
    /\ "config_local.cfg" <> local_config_filename self.
Proof.
  destruct (init_records_unforced_local_path Sample.read_file
              Sample.fs_master_only "config.cfg" None DEFAULT_LOGGER eq_refl)
    as [_ H].
  apply (H Sample.master_text Sample.master_doc); vm_compute; reflexivity.
Defined.

(** The deprecated loader with both files in place. *)
Lemma get_config_spec_witness :
  get_config Sample.read_file Sample.fs_both "config.cfg" false
  = ([Warn DeprecationWarning
        "prosper.common.prosper_configreplaced with ProsperConfig";
      IsFile "config_local.cfg"; Open "config_local.cfg"],
     Sample.read_file Sample.local_text).
Proof.
  exact (get_config_spec Sample.read_file Sample.fs_both "config.cfg" false).
Defined.

(** The deprecated loader on the other disks and with the flag. *)
Example get_config_falls_back_to_master :
  get_config Sample.read_file Sample.fs_master_only "config.cfg" false
  = ([Warn DeprecationWarning
        "prosper.common.prosper_configreplaced with ProsperConfig";
      IsFile "config_local.cfg"; Open "config.cfg"],
     Ok Sample.master_doc).
Proof. vm_compute. reflexivity. Qed.

Example get_config_prefers_local :
  get_config Sample.read_file Sample.fs_both "config.cfg" false
  = ([Warn DeprecationWarning
        "prosper.common.prosper_configreplaced with ProsperConfig";
      IsFile "config_local.cfg"; Open "config_local.cfg"],
     Ok Sample.local_doc).
Proof. vm_compute. reflexivity. Qed.

Example get_config_forced_tracked :
  get_config Sample.read_file Sample.fs_both "config.cfg" true
  = ([Warn DeprecationWarning
        "prosper.common.prosper_configreplaced with ProsperConfig";
      IsFile "config_local.cfg"; Open "config.cfg"],
     Ok Sample.master_doc).
Proof. vm_compute. reflexivity. Qed.

(** Both files in place: the spec's scenario end to end. *)
Example scenario_both_files :
  outcome (self <- __init__ Sample.read_file Sample.fs_both
                     "config.cfg" None DEFAULT_LOGGER ;;
           get_option Sample.before_get self "api" "timeout" PyNone PyNone)
  = Ok (PyStr "5").
Proof. vm_compute. reflexivity. Qed.

(** * Further properties *)

(** ** More on [get_option] *)

Lemma py_eq_refl (x : pyval) : py_eq x x = true.
Proof.
  destruct x as [|b|z|s]; cbn.
  - reflexivity.
  - now destruct b.
  - apply Z.eqb_refl.
  - apply String.eqb_refl.
Qed.

Lemma py_ne_refl (x : pyval) : py_ne x x = false.
Proof. unfold py_ne. now rewrite py_eq_refl. Qed.

Section ResolverMore.

Variable before_get :
  ConfigParser -> string -> string -> string -> result string.

(** X1.  A runtime value that equals the default is not used at all: the
    call resolves exactly as if the default itself had been passed as
    runtime value. *)
Theorem get_option_ignores_equal_runtime_value :
  forall (self : ProsperConfig) (section_name key_name : string)
         (args_option args_default : pyval),
    py_ne args_option args_default = false ->
    get_option before_get self section_name key_name args_option args_default
    = get_option before_get self section_name key_name
        args_default args_default.
Proof.
  intros self section_name key_name args_option args_default Hne.
  unfold get_option. now rewrite Hne, py_ne_refl.
Qed.

(** X2.  All [get_option] does besides computing its result is log: the
    first record is the debug record ["picking config"], at most three more
    follow, and every event is a record handed to the resolver's own logger
    (no file is probed or opened, no warning goes to the warning channel). *)
Theorem get_option_only_logs :
  forall (self : ProsperConfig) (section_name key_name : string)
         (args_option args_default : pyval),
    exists rest,
      trace (get_option before_get self section_name key_name
               args_option args_default)
      = Log (logger self) DEBUG "picking config" :: rest
      /\ (length rest <= 3)%nat
      /\ Forall (fun ev => exists lvl msg, ev = Log (logger self) lvl msg) rest.
Proof.
  intros self section_name key_name args_option args_default.
  destruct (py_ne args_option args_default) eqn:Hne;
    get_option_paths before_get self section_name key_name;
    rewrite Hne; cbn;
    eexists; (split; [reflexivity|]); cbn;
    (split; [lia|]); repeat constructor; eauto.
Qed.

(** X3.  A record at WARNING level means the lookup ran out of tiers: it is
    the record of the master miss, and the call returns the default. *)
Theorem get_option_warning_means_default :
  forall (self : ProsperConfig) (section_name key_name : string)
         (args_option args_default : pyval) (name msg : string),
    In (Log name WARNING msg)
       (trace (get_option before_get self section_name key_name
                 args_option args_default)) ->
    msg = (section_name +:+ "." +:+ key_name) +:+ "not found in global config"
    /\ outcome (get_option before_get self section_name key_name
                  args_option args_default)
       = Ok args_default.
Proof.
  intros self section_name key_name args_option args_default name msg.
  destruct (py_ne args_option args_default) eqn:Hne;
    get_option_paths before_get self section_name key_name;
    rewrite Hne; cbn; intros H;
    repeat (destruct H as [H|H]; [try discriminate H|]);
    try contradiction;
    injection H as _ <-; split; reflexivity.
Qed.

(** X4.  [get_option] raises [e] in exactly three situations, all without
    a runtime override: there is no local document ([e] is the [TypeError]
    of subscripting [None]); the local lookup fails with an [e] other than
    [KeyError]; or the local lookup misses and the master lookup fails with
    an [e] other than [KeyError]. *)
Theorem get_option_raises_iff :
  forall (self : ProsperConfig) (section_name key_name : string)
         (args_option args_default : pyval) (e : pyexn),
    outcome (get_option before_get self section_name key_name
               args_option args_default) = Raise e
    <->
    py_ne args_option args_default = false
    /\ ((local_config self = None
         /\ e = TypeError "'NoneType' object is not subscriptable")
        \/ (exists local,
               local_config self = Some local
               /\ CP.getitem before_get local section_name key_name = Raise e
               /\ is_KeyError e = false)
        \/ (exists local k,
               local_config self = Some local
               /\ CP.getitem before_get local section_name key_name
                  = Raise (KeyError k)
               /\ CP.getitem before_get (global_config self)
                    section_name key_name = Raise e
               /\ is_KeyError e = false)).
Proof.
  intros self section_name key_name args_option args_default e.
  split.
  - destruct (py_ne args_option args_default) eqn:Hne.
    { unfold get_option. rewrite Hne. discriminate. }
    intros H. split; [reflexivity|].
    unfold get_option, subscript, lift, debug, warning in H.
    rewrite Hne in H.
    destruct (local_config self) as [local|].
    2:{ left. split; [reflexivity|]. cbn in H. now injection H as <-. }
    right.
    destruct (CP.getitem before_get local section_name key_name)
      as [v|e1] eqn:Hl; [discriminate H|].
    destruct (is_KeyError e1) eqn:Hk.
    + right. destruct e1; try discriminate Hk.
      exists local, key.
      destruct (CP.getitem before_get (global_config self)
                  section_name key_name) as [v|e2] eqn:Hg;
        [discriminate H|].
      destruct e2; cbn in H; try discriminate H;
        injection H as <-; repeat split; solve [reflexivity | assumption].
    + left. exists local.
      destruct e1; try discriminate Hk; cbn in H;
        injection H as <-; repeat split; solve [reflexivity | assumption].
  - intros [Hne [[Hnone ->]|[(local & Hsome & Hl & Hk)
                             |(local & k & Hsome & Hl & Hg & Hk)]]];
      unfold get_option, subscript, lift, debug, warning;
      rewrite Hne, Hsome || rewrite Hne, Hnone.
    + reflexivity.
    + rewrite Hl. destruct e; try discriminate Hk; reflexivity.
    + rewrite Hl, Hg. destruct e; try discriminate Hk; reflexivity.
Qed.

(** X5.  [attach_logger] replaces the sink and nothing else: file names and
    documents are kept, every lookup has the outcome it had before, and the
    records of a lookup now all go to the new logger. *)
Theorem attach_logger_spec :
  forall (self : ProsperConfig) (new_logger : string)
         (section_name key_name : string) (args_option args_default : pyval),
    let self' := attach_logger self new_logger in
    logger self' = new_logger
    /\ config_filename self' = config_filename self
    /\ local_config_filename self' = local_config_filename self
    /\ global_config self' = global_config self
    /\ local_config self' = local_config self
    /\ outcome (get_option before_get self' section_name key_name
                  args_option args_default)
       = outcome (get_option before_get self section_name key_name
                    args_option args_default)
    /\ Forall (fun ev => exists lvl msg, ev = Log new_logger lvl msg)
         (trace (get_option before_get self' section_name key_name
                   args_option args_default)).
Proof.
  intros self new_logger section_name key_name args_option args_default self'.
  do 5 (split; [reflexivity|]).
  subst self'. split.
  - apply attach_logger_get_option.
  - unfold get_option, attach_logger, subscript, lift, debug, warning.
    cbn [logger local_config global_config].
    destruct (py_ne args_option args_default);
      [cbn; repeat constructor; eauto|].
    destruct (local_config self) as [local|];
      [|cbn; repeat constructor; eauto].
    destruct (CP.getitem before_get local section_name key_name) as [v|[]];
      destruct (CP.getitem before_get (global_config self)
                  section_name key_name) as [v'|[]];
      cbn; repeat constructor; eauto.
Qed.

End ResolverMore.

Lemma get_option_ignores_equal_runtime_value_witness :
  get_option Sample.before_get (Sample.resolver (Some Sample.local_doc))
    "api" "timeout" (PyBool true) (PyInt 1)
  = get_option Sample.before_get (Sample.resolver (Some Sample.local_doc))
      "api" "timeout" (PyInt 1) (PyInt 1).
Proof.
  apply (get_option_ignores_equal_runtime_value Sample.before_get
           (Sample.resolver (Some Sample.local_doc)) "api" "timeout"
           (PyBool true) (PyInt 1)).
  reflexivity.
Defined.

Lemma get_option_warning_means_default_witness :
  outcome (get_option Sample.before_get
             (Sample.resolver (Some Sample.local_doc))
             "api" "retries" PyNone PyNone)
  = Ok PyNone.
Proof.
  apply (get_option_warning_means_default Sample.before_get
           (Sample.resolver (Some Sample.local_doc)) "api" "retries"
           PyNone PyNone "NULL" "api.retriesnot found in global config").
  cbn. do 2 right. left. reflexivity.
Defined.

(** A private value with a dangling reference: the lookup raises, although
    the master holds a usable [timeout]. *)
Lemma get_option_raises_iff_witness :
  CP.getitem SampleMore.before_get_refs Sample.master_doc "api" "timeout"
  = Ok (Some "30")
  /\ outcome (get_option SampleMore.before_get_refs
                (Sample.resolver (Some SampleMore.dangling_doc))
                "api" "timeout" PyNone PyNone)
     = Raise (InterpolationError "timeout" "api").
Proof.
  split; [reflexivity|].
  apply (proj2 (get_option_raises_iff SampleMore.before_get_refs
                  (Sample.resolver (Some SampleMore.dangling_doc))
                  "api" "timeout" PyNone PyNone
                  (InterpolationError "timeout" "api"))).
  split; [reflexivity|]. right. left.
  exists SampleMore.dangling_doc. repeat split; reflexivity.
Defined.

(** ** More on the loaders and the constructor *)

Section LoaderMore.

Variable read_file : string -> result ConfigParser.

(** X6.  When the master file cannot be loaded, [get_configs] and the
    constructor raise that very error, and the local path is never opened
    ([get_configs] does not even probe it). *)
Theorem master_failure_stops_loading :
  forall (fs : filesystem) (config_filepath : string)
         (local_filepath_override : option string) (logger : string)
         (e : pyexn),
    outcome (load read_file fs config_filepath) = Raise e ->
    get_configs read_file fs config_filepath local_filepath_override
    = ([Open config_filepath], Raise e)
    /\ __init__ read_file fs config_filepath local_filepath_override logger
       = ([IsFile (Str.replace config_filepath ".cfg" "_local.cfg");
           Open config_filepath],
          Raise e).
Proof.
  intros fs config_filepath local_filepath_override logger e He.
  rewrite get_configs_spec, init_spec, He. split; reflexivity.
Qed.

(** An empty string as override is no override: the loader and the
    constructor behave exactly as with [None]. *)
Lemma empty_override_is_no_override :
  forall (fs : filesystem) (config_filepath : string) (logger : string),
    get_configs read_file fs config_filepath (Some "")
    = get_configs read_file fs config_filepath None
    /\ __init__ read_file fs config_filepath (Some "") logger
       = __init__ read_file fs config_filepath None logger.
Proof. intros. split; reflexivity. Qed.

(** X7.  With an override, what sits at the derived [_local.cfg] path does
    not matter: on two disks that agree on the master path and on the
    override path, [get_configs] does the same and returns the same. *)
Theorem override_ignores_derived_file :
  forall (fs fs' : filesystem) (config_filepath : string)
         (local_filepath_override : option string),
    truthy local_filepath_override = true ->
    fs !! config_filepath = fs' !! config_filepath ->
    fs !! default "" local_filepath_override
    = fs' !! default "" local_filepath_override ->
    get_configs read_file fs config_filepath local_filepath_override
    = get_configs read_file fs' config_filepath local_filepath_override.
Proof.
  intros fs fs' config_filepath local_filepath_override Hover Hmaster Hlocal.
  rewrite !get_configs_spec. unfold local_source. rewrite Hover.
  rewrite !load_spec, Hmaster, Hlocal. reflexivity.
Qed.


(** X9.  A master path with no [.cfg] in it is its own local path: without
    an override the loader reads the same file twice and the local document
    is the master document. *)
Theorem get_configs_without_cfg_in_name :
  forall (fs : filesystem) (config_filepath text : string)
         (global : ConfigParser),
    Str.occurs ".cfg" config_filepath = false ->
    fs !! config_filepath = Some text ->
    read_file text = Ok global ->
    get_configs read_file fs config_filepath None
    = ([Open config_filepath; IsFile config_filepath; Open config_filepath],
       Ok (global, Some global)).
Proof.
  intros fs config_filepath text global Hocc Hfile Hparse.
  rewrite get_configs_spec. unfold local_source. cbn [truthy].
  rewrite (StrFacts.replace_not_occurs "." "cfg" "_local.cfg" _ Hocc).
  rewrite load_spec, Hfile, Hparse. reflexivity.
Qed.

(** The deprecated loader in closed form. *)
Lemma get_config_eq (fs : filesystem) (config_filepath : string)
    (local_override : bool) :
  get_config read_file fs config_filepath local_override
  = ([Warn DeprecationWarning
        "prosper.common.prosper_configreplaced with ProsperConfig";
      IsFile (Str.replace config_filepath ".cfg" "_local.cfg")]
     ++ trace (load read_file fs
                 (if local_override then config_filepath
                  else outcome_path fs config_filepath)),
     outcome (load read_file fs
                (if local_override then config_filepath
                 else outcome_path fs config_filepath))).
Proof.
  unfold get_config, outcome_path.
  rewrite get_local_config_filepath_eq, orb_false_r.
  unfold bind at 2. cbv beta iota.
  rewrite !load_spec. reflexivity.
Qed.

(** X10.  The deprecated loader with the tracked flag returns the master
    document of [get_configs]: whenever [get_configs] succeeds,
    [get_config(path, True)] succeeds with its first component, and whenever
    [get_config(path, True)] fails, [get_configs] fails with the same
    error. *)
Theorem get_config_tracked_agrees_with_get_configs :
  forall (fs : filesystem) (config_filepath : string)
         (local_filepath_override : option string),
    match outcome (get_config read_file fs config_filepath true) with
    | Ok config =>
        forall configs,
          outcome (get_configs read_file fs config_filepath
                     local_filepath_override) = Ok configs ->
          fst configs = config
    | Raise e =>
        outcome (get_configs read_file fs config_filepath
                   local_filepath_override) = Raise e
    end.
Proof.
  intros fs config_filepath local_filepath_override.
  rewrite get_config_eq, get_configs_spec, !load_spec. observe.
  destruct (fs !! config_filepath) as [text|]; [|reflexivity].
  destruct (read_file text) as [config|e]; [|reflexivity].
  destruct (fs !! local_source config_filepath local_filepath_override)
    as [ltext|].
  - destruct (read_file ltext) as [local|e].
    + now intros ? [= <-].
    + destruct (is_IOError e); [now intros ? [= <-] | discriminate].
  - cbn. now intros ? [= <-].
Qed.

(** X11.  The deprecated loader and the constructor agree on the local
    file: without the flag, [get_config] opens exactly the path a resolver
    built for the same master path (and no override) records as its local
    filename, and returns what loading that path yields. *)
Theorem get_config_reads_recorded_local_file :
  forall (fs : filesystem) (path : string)
         (local_filepath_override : option string) (name : string)
         (self : ProsperConfig),
    truthy local_filepath_override = false ->
    outcome (__init__ read_file fs path local_filepath_override name)
    = Ok self ->
    get_config read_file fs path false
    = ([Warn DeprecationWarning
          "prosper.common.prosper_configreplaced with ProsperConfig";
        IsFile (Str.replace path ".cfg" "_local.cfg");
        Open (local_config_filename self)],
       outcome (load read_file fs (local_config_filename self))).
Proof.
  intros fs path override name self Hover.
  rewrite init_spec, get_config_eq. rewrite Hover.
  assert (Hrec : forall global local,
             local_config_filename
               {| logger := name; config_filename := path;
                  local_config_filename := outcome_path fs path;
                  global_config := global; local_config := local |}
             = outcome_path fs path) by reflexivity.
  fold (outcome_path fs path).
  destruct (outcome (load read_file fs path)) as [global|e]; [|discriminate].
  destruct (outcome (load read_file fs (local_source path override)))
    as [local|e].
  - intros [= <-]. rewrite Hrec, load_spec. reflexivity.
  - destruct (is_IOError e); [|discriminate].
    intros [= <-]. rewrite Hrec, load_spec. reflexivity.
Qed.

End LoaderMore.

(** ** Construction followed by a lookup *)

Section EndToEnd.

Variable read_file : string -> result ConfigParser.
Variable before_get :
  ConfigParser -> string -> string -> string -> result string.

(** X12.  A resolver built where the master file loads and the derived
    local file is not on disk (and no override is given) answers a lookup
    only when a runtime value differing from the default is passed; every
    other lookup raises the [TypeError] of subscripting [None], whatever the
    master document holds. *)
Theorem lookup_after_construction_without_local_file :
  forall (fs : filesystem) (path : string)
         (local_filepath_override : option string) (name text : string)
         (global : ConfigParser) (section_name key_name : string)
         (args_option args_default : pyval),
    truthy local_filepath_override = false ->
    fs !! path = Some text ->
    read_file text = Ok global ->
    fs !! Str.replace path ".cfg" "_local.cfg" = None ->
    outcome (self <- __init__ read_file fs path local_filepath_override name ;;
             get_option before_get self section_name key_name
               args_option args_default)
    = if py_ne args_option args_default
      then Ok args_option
      else Raise (TypeError "'NoneType' object is not subscriptable").
Proof.
  intros fs path override name text global section_name key_name
    args_option args_default Hover Hmaster Hparse Hlocal.
  rewrite init_spec. unfold local_source. rewrite Hover.
  rewrite !load_spec, Hmaster, Hlocal. observe. rewrite Hparse.
  cbn [is_IOError]. unfold bind at 1.
  unfold get_option. cbn [local_config].
  destruct (py_ne args_option args_default); reflexivity.
Qed.

(** X13.  With both files loading, a resolver built without override
    resolves a lookup that has no runtime override from the private file
    first: a pair the private document holds gets the private value, a pair
    it lacks gets whatever the master lookup gives, and the default is
    returned only when the master lacks the pair too. *)
Theorem lookup_after_construction_with_both_files :
  forall (fs : filesystem) (path : string) (name text ltext : string)
         (global local : ConfigParser) (section_name key_name : string)
         (args_option args_default : pyval),
    fs !! path = Some text ->
    read_file text = Ok global ->
    fs !! Str.replace path ".cfg" "_local.cfg" = Some ltext ->
    read_file ltext = Ok local ->
    py_ne args_option args_default = false ->
    outcome (self <- __init__ read_file fs path None name ;;
             get_option before_get self section_name key_name
               args_option args_default)
    = match CP.getitem before_get local section_name key_name with
      | Ok v => Ok (pyval_of v)
      | Raise (KeyError _) =>
          match CP.getitem before_get global section_name key_name with
          | Ok v => Ok (pyval_of v)
          | Raise (KeyError _) => Ok args_default
          | Raise e => Raise e
          end
      | Raise e => Raise e
      end.
Proof.
  intros fs path name text ltext global local section_name key_name
    args_option args_default Hmaster Hparse Hlocal Hlparse Hne.
  rewrite init_spec. unfold local_source. cbn [truthy].
  rewrite !load_spec, Hmaster, Hlocal. observe. rewrite Hparse, Hlparse.
  unfold bind at 1.
  unfold get_option, subscript, lift. cbn [local_config global_config].
  rewrite Hne.
  destruct (CP.getitem before_get local section_name key_name) as [v|[]];
    try reflexivity.
  destruct (CP.getitem before_get global section_name key_name) as [v|[]];
    reflexivity.
Qed.

End EndToEnd.

(** ** The further properties on the example disks *)

Lemma master_failure_stops_loading_witness :
  get_configs Sample.read_file SampleMore.fs_empty "config.cfg" None
  = ([Open "config.cfg"], Raise (FileNotFoundError "config.cfg"))
  /\ __init__ Sample.read_file SampleMore.fs_empty "config.cfg" None "NULL"
     = ([IsFile "config_local.cfg"; Open "config.cfg"],
        Raise (FileNotFoundError "config.cfg")).
Proof.
  apply (master_failure_stops_loading Sample.read_file SampleMore.fs_empty
           "config.cfg" None "NULL" (FileNotFoundError "config.cfg")).
  reflexivity.
Defined.

(** The malformed [config_local.cfg] is of no consequence once an override
    is given. *)
Lemma override_ignores_derived_file_witness :
  get_configs Sample.read_file SampleMore.fs_override
    "config.cfg" (Some "/etc/app.cfg")
  = get_configs Sample.read_file
      (delete "config_local.cfg" SampleMore.fs_override)
      "config.cfg" (Some "/etc/app.cfg").
Proof.
  apply (override_ignores_derived_file Sample.read_file
           SampleMore.fs_override
           (delete "config_local.cfg" SampleMore.fs_override)
           "config.cfg" (Some "/etc/app.cfg"));
    vm_compute; reflexivity.
Defined.

Example override_is_loaded :
  outcome (get_configs Sample.read_file SampleMore.fs_override
             "config.cfg" (Some "/etc/app.cfg"))
  = Ok (Sample.master_doc, Some Sample.local_doc).
Proof. vm_compute. reflexivity. Qed.


Lemma get_configs_without_cfg_in_name_witness :
  get_configs Sample.read_file SampleMore.fs_ini "settings.ini" None
  = ([Open "settings.ini"; IsFile "settings.ini"; Open "settings.ini"],
     Ok (Sample.master_doc, Some Sample.master_doc)).
Proof.
  apply (get_configs_without_cfg_in_name Sample.read_file SampleMore.fs_ini
           "settings.ini" Sample.master_text Sample.master_doc);
    vm_compute; reflexivity.
Defined.

Lemma get_config_reads_recorded_local_file_witness :
  get_config Sample.read_file Sample.fs_master_only "config.cfg" false
  = ([Warn DeprecationWarning
        "prosper.common.prosper_configreplaced with ProsperConfig";
      IsFile "config_local.cfg"; Open "config.cfg"],
     outcome (load Sample.read_file Sample.fs_master_only "config.cfg")).
Proof.
  apply (get_config_reads_recorded_local_file Sample.read_file
           Sample.fs_master_only "config.cfg" None "NULL"
           {| logger := "NULL";
              config_filename := "config.cfg";
              local_config_filename := "config.cfg";
              global_config := Sample.master_doc;
              local_config := None |});
    vm_compute; reflexivity.
Defined.

Lemma lookup_after_construction_without_local_file_witness :
  outcome (self <- __init__ Sample.read_file Sample.fs_master_only
                     "config.cfg" None "NULL" ;;
           get_option Sample.before_get self "api" "timeout" PyNone PyNone)
  = Raise (TypeError "'NoneType' object is not subscriptable")
  /\ outcome (self <- __init__ Sample.read_file Sample.fs_master_only
                        "config.cfg" None "NULL" ;;
              get_option Sample.before_get self "api" "timeout"
                (PyInt 99) PyNone)
     = Ok (PyInt 99).
Proof.
  split.
  - apply (lookup_after_construction_without_local_file Sample.read_file
             Sample.before_get Sample.fs_master_only "config.cfg" None "NULL"
             Sample.master_text Sample.master_doc "api" "timeout"
             PyNone PyNone);
      vm_compute; reflexivity.
  - apply (lookup_after_construction_without_local_file Sample.read_file
             Sample.before_get Sample.fs_master_only "config.cfg" None "NULL"
             Sample.master_text Sample.master_doc "api" "timeout"
             (PyInt 99) PyNone);
      vm_compute; reflexivity.
Defined.

Lemma lookup_after_construction_with_both_files_witness :
  outcome (self <- __init__ Sample.read_file Sample.fs_both
                     "config.cfg" None "NULL" ;;
           get_option Sample.before_get self "api" "host" PyNone PyNone)
  = Ok (PyStr "example.org").
Proof.
  apply (lookup_after_construction_with_both_files Sample.read_file
           Sample.before_get Sample.fs_both "config.cfg" "NULL"
           Sample.master_text Sample.local_text
           Sample.master_doc Sample.local_doc "api" "host" PyNone PyNone);
    vm_compute; reflexivity.
Defined.

(** ** The helpers of [setup.py] *)

Section SetupFacts.

Variable HERE : string.
Variable find_packages : string -> list string.
Variable listdir : string -> result (list string).
Variable isdir : string -> bool.

Lemma prefix_refl (s : string) : String.prefix s s = true.
Proof.
  rewrite <- (StrFacts.app_nil_r s) at 2. apply StrFacts.prefix_app.
Qed.

Lemma app_not_self (s t : string) : s +:+ t = s -> t = EmptyString.
Proof.
  intros H. rewrite <- (StrFacts.app_nil_r s) in H at 2.
  induction s as [|c s IH]; [exact H|].
  rewrite !StrFacts.app_cons in H. injection H as H. exact (IH H).
Qed.

Lemma app_cancel (s t u : string) : s +:+ t = s +:+ u -> t = u.
Proof.
  induction s as [|c s IH]; intros H; [exact H|].
  rewrite !StrFacts.app_cons in H. injection H as H. exact (IH H).
Qed.

(** The loop of [hack_find_packages] appends one qualified name per
    element found. *)
Lemma hack_loop (include_str : string) (found new_list : list string) :
  fold_left
    (fun new_list element => new_list ++ [include_str +:+ "." +:+ element])
    found new_list
  = new_list ++ List.map (fun e => include_str +:+ "." +:+ e) found.
Proof.
  revert new_list.
  induction found as [|e found IH]; intros new_list; cbn [fold_left List.map].
  - now rewrite app_nil_r.
  - rewrite IH, <- app_assoc. reflexivity.
Qed.

Lemma hack_find_packages_eq (include_str : string) :
  hack_find_packages find_packages include_str
  = include_str
    :: List.map (fun e => include_str +:+ "." +:+ e)
         (find_packages include_str).
Proof. unfold hack_find_packages. now rewrite hack_loop. Qed.

(** X14.  [hack_find_packages] returns the root first and then one name per
    package found, in the order found: the result is the list of the root
    followed by the found names, each qualified by ["<root>."], position by
    position.  So every entry starts with the root and the list is one longer
    than what [find_packages] gave. *)
Theorem hack_find_packages_qualified :
  forall (include_str : string),
    hack_find_packages find_packages include_str
    = include_str
      :: List.map (fun e => include_str +:+ "." +:+ e)
           (find_packages include_str)
    /\ (forall i e,
           nth_error (find_packages include_str) i = Some e ->
           nth_error (hack_find_packages find_packages include_str) (S i)
           = Some (include_str +:+ "." +:+ e))
    /\ hd_error (hack_find_packages find_packages include_str)
       = Some include_str
    /\ length (hack_find_packages find_packages include_str)
       = S (length (find_packages include_str))
    /\ (forall x,
           In x (hack_find_packages find_packages include_str)
           <-> x = include_str
               \/ exists e, In e (find_packages include_str)
                            /\ x = include_str +:+ "." +:+ e)
    /\ Forall (fun x => String.prefix include_str x = true)
         (hack_find_packages find_packages include_str).
Proof.
  intros include_str. rewrite hack_find_packages_eq.
  split; [reflexivity|]. split.
  { intros i e He. cbn [nth_error].
    now rewrite nth_error_map, He. }
  split; [reflexivity|]. split; [cbn; now rewrite length_map|].
  split.
  - intros x. cbn [In]. rewrite in_map_iff. split.
    + intros [<-|(e & <- & He)]; [now left | right; eauto].
    + intros [->|(e & He & ->)]; [now left | right; eauto].
  - constructor; [apply prefix_refl|].
    apply List.Forall_forall. intros x Hx.
    apply in_map_iff in Hx as (e & <- & _).
    apply StrFacts.prefix_app.
Qed.

(** X15.  If [find_packages] lists no package twice, neither does
    [hack_find_packages]: qualifying keeps distinct names distinct, and no
    qualified name equals the root. *)
Theorem hack_find_packages_NoDup :
  forall (include_str : string),
    List.NoDup (find_packages include_str) ->
    List.NoDup (hack_find_packages find_packages include_str).
Proof.
  intros include_str Hnd. rewrite hack_find_packages_eq.
  apply List.NoDup_cons.
  - intros Hin. apply in_map_iff in Hin as (e & He & _).
    apply app_not_self in He. discriminate He.
  - apply Finite.Injective_map_NoDup; [|exact Hnd].
    intros a b Hab. apply app_cancel in Hab. now injection Hab.
Qed.

(** The inner loop of [include_all_subfiles] appends the flat files of one
    directory. *)
Lemma include_file_loop (path_included : string)
    (files file_list : list string) :
  fold_left (include_file isdir path_included (Path.join HERE path_included))
    files file_list
  = file_list ++ flat_files HERE isdir path_included files.
Proof.
  unfold flat_files. revert file_list.
  induction files as [|file files IH]; intros file_list;
    cbn [fold_left List.filter List.map].
  - now rewrite app_nil_r.
  - rewrite IH. unfold include_file.
    destruct (isdir (Path.join (Path.join HERE path_included) file));
      cbn [negb List.map]; [reflexivity|].
    now rewrite <- app_assoc.
Qed.

(** What was collected before is kept in front. *)
Lemma include_all_subfiles_from_acc (file_list args : list string) :
  include_all_subfiles_from HERE listdir isdir file_list args
  = match include_all_subfiles HERE listdir isdir args with
    | Ok l => Ok (file_list ++ l)
    | Raise e => Raise e
    end.
Proof.
  unfold include_all_subfiles. revert file_list.
  induction args as [|path_included rest IH]; intros file_list;
    cbn [include_all_subfiles_from].
  - now rewrite app_nil_r.
  - destruct (listdir (Path.join HERE path_included)) as [files|e];
      [|reflexivity].
    rewrite !include_file_loop, IH, (IH ([] ++ _)).
    destruct (include_all_subfiles_from HERE listdir isdir [] rest);
      [|reflexivity].
    now rewrite app_nil_l, app_assoc.
Qed.

(** One argument at a time. *)
Lemma include_all_subfiles_cons (path_included : string) (rest : list string) :
  include_all_subfiles HERE listdir isdir (path_included :: rest)
  = match listdir (Path.join HERE path_included) with
    | Raise e => Raise e
    | Ok files =>
        match include_all_subfiles HERE listdir isdir rest with
        | Ok l => Ok (flat_files HERE isdir path_included files ++ l)
        | Raise e => Raise e
        end
    end.
Proof.
  unfold include_all_subfiles at 1. cbn [include_all_subfiles_from].
  destruct (listdir (Path.join HERE path_included)) as [files|e];
    [|reflexivity].
  now rewrite include_file_loop, include_all_subfiles_from_acc.
Qed.

(** X16.  Listing several directories is listing each and concatenating:
    for argument lists [a] and [b], the call on [a ++ b] fails where the call
    on [a] fails, else where the call on [b] fails, and otherwise returns the
    files of [a] followed by the files of [b]. *)
Theorem include_all_subfiles_app :
  forall (a b : list string),
    include_all_subfiles HERE listdir isdir (a ++ b)
    = match include_all_subfiles HERE listdir isdir a with
      | Raise e => Raise e
      | Ok la =>
          match include_all_subfiles HERE listdir isdir b with
          | Ok lb => Ok (la ++ lb)
          | Raise e => Raise e
          end
      end.
Proof.
  intros a b. induction a as [|path_included a IH].
  - cbn [app]. unfold include_all_subfiles at 2.
    cbn [include_all_subfiles_from].
    destruct (include_all_subfiles HERE listdir isdir b); reflexivity.
  - cbn [app]. rewrite !include_all_subfiles_cons, IH.
    destruct (listdir (Path.join HERE path_included)) as [files|e];
      [|reflexivity].
    destruct (include_all_subfiles HERE listdir isdir a) as [la|e];
      [|reflexivity].
    destruct (include_all_subfiles HERE listdir isdir b) as [lb|e];
      [|reflexivity].
    now rewrite app_assoc.
Qed.

(** X17.  [include_all_subfiles] returns a list exactly when every argument
    names a directory that can be listed; the first argument whose listing
    fails makes the whole call raise that error, whatever was collected
    before. *)
Theorem include_all_subfiles_fails_on_first_unlistable :
  forall (args : list string),
    ((exists l, include_all_subfiles HERE listdir isdir args = Ok l)
     <-> Forall (fun path_included =>
                   exists files,
                     listdir (Path.join HERE path_included) = Ok files)
           args)
    /\ (forall before path_included after e,
           args = before ++ path_included :: after ->
           Forall (fun p => exists files, listdir (Path.join HERE p) = Ok files)
             before ->
           listdir (Path.join HERE path_included) = Raise e ->
           include_all_subfiles HERE listdir isdir args = Raise e).
Proof.
  assert (Hiff : forall args,
             (exists l, include_all_subfiles HERE listdir isdir args = Ok l)
             <-> Forall (fun p => exists files,
                           listdir (Path.join HERE p) = Ok files) args).
  { induction args as [|p args IH].
    - split; [constructor | intros _; now exists []].
    - rewrite include_all_subfiles_cons. split.
      + intros [l Hl].
        destruct (listdir (Path.join HERE p)) as [files|e] eqn:Hf;
          [|discriminate Hl].
        constructor; [eauto|]. apply IH.
        destruct (include_all_subfiles HERE listdir isdir args);
          [eauto | discriminate Hl].
      + intros H. inversion H as [|? ? [files Hf] Hrest]; subst.
        apply IH in Hrest as [l Hl]. rewrite Hf, Hl. eauto. }
  intros args. split; [apply Hiff|].
  intros before path_included after e -> Hbefore He.
  rewrite include_all_subfiles_app.
  apply Hiff in Hbefore as [la ->].
  now rewrite include_all_subfiles_cons, He.
Qed.

(** X18.  When [include_all_subfiles] returns, its entries are exactly the
    names [<argument>/<file>] for the entries [file] of an argument's
    directory (taken under [HERE]) that are not themselves directories;
    sub-directories are left out and not descended into. *)
Theorem include_all_subfiles_entries :
  forall (args l : list string),
    include_all_subfiles HERE listdir isdir args = Ok l ->
    forall x,
      In x l
      <-> exists path_included files file,
            In path_included args
            /\ listdir (Path.join HERE path_included) = Ok files
            /\ In file files
            /\ isdir (Path.join (Path.join HERE path_included) file) = false
            /\ x = path_included +:+ "/" +:+ file.
Proof.
  induction args as [|p args IH]; intros l Hl x.
  - injection Hl as <-. split; [intros []|].
    intros (? & ? & ? & [] & _).
  - rewrite include_all_subfiles_cons in Hl.
    destruct (listdir (Path.join HERE p)) as [files|e] eqn:Hf;
      [|discriminate Hl].
    destruct (include_all_subfiles HERE listdir isdir args) as [l'|e];
      [|discriminate Hl].
    injection Hl as <-. rewrite in_app_iff, (IH l' eq_refl x).
    unfold flat_files. rewrite in_map_iff. split.
    + intros [(file & <- & Hin)|(p' & files' & file & Hp & Hrest)].
      * apply filter_In in Hin as [Hin Hd].
        apply negb_true_iff in Hd.
        exists p, files, file. repeat split; auto. now left.
      * exists p', files', file. destruct Hrest as (? & ? & ? & ?).
        repeat split; auto. now right.
    + intros (p' & files' & file & [<-|Hp] & Hl' & Hin & Hd & ->).
      * left. exists file. split; [reflexivity|].
        rewrite Hf in Hl'. injection Hl' as <-.
        apply filter_In. split; [exact Hin|]. now rewrite Hd.
      * right. exists p', files', file. repeat split; auto.
Qed.

End SetupFacts.

Lemma hack_find_packages_NoDup_witness :
  List.NoDup (hack_find_packages SampleMore.find_packages "prosper").
Proof.
  apply (hack_find_packages_NoDup SampleMore.find_packages "prosper").
  repeat constructor; cbn; intuition discriminate.
Defined.

Example hack_find_packages_prosper :
  hack_find_packages SampleMore.find_packages "prosper"
  = ["prosper"; "prosper.common"; "prosper.crest"].
Proof. reflexivity. Qed.

Lemma include_all_subfiles_fails_on_first_unlistable_witness :
  include_all_subfiles SampleMore.HERE SampleMore.listdir SampleMore.isdir
    ["docs"; "build"; "test"]
  = Raise (FileNotFoundError "/srv/app/build").
Proof.
  apply (proj2 (include_all_subfiles_fails_on_first_unlistable
                  SampleMore.HERE SampleMore.listdir SampleMore.isdir
                  ["docs"; "build"; "test"])
           ["docs"] "build" ["test"]).
  - reflexivity.
  - repeat constructor. eexists. reflexivity.
  - reflexivity.
Defined.

Lemma include_all_subfiles_entries_witness :
  In "docs/api.rst" ["docs/index.rst"; "docs/api.rst"; "test/logging_test.py"]
  <-> exists path_included files file,
        In path_included ["docs"; "test"]
        /\ SampleMore.listdir (Path.join SampleMore.HERE path_included)
           = Ok files
        /\ In file files
        /\ SampleMore.isdir
             (Path.join (Path.join SampleMore.HERE path_included) file)
           = false
        /\ "docs/api.rst" = path_included +:+ "/" +:+ file.
Proof.
  apply (include_all_subfiles_entries SampleMore.HERE SampleMore.listdir
           SampleMore.isdir ["docs"; "test"]
           ["docs/index.rst"; "docs/api.rst"; "test/logging_test.py"]).
  reflexivity.
Defined.

(** ** More on the derived path *)

Module ReplaceFacts.

Import StrFacts.

Lemma app_assoc (a b c : string) : (a +:+ b) +:+ c = a +:+ b +:+ c.
Proof.
  induction a as [|x a IH]; [reflexivity|].
  now rewrite !app_cons, IH.
Qed.

Lemma prefix_split (old s : string) :
  String.prefix old s = true -> exists b, s = old +:+ b.
Proof.
  revert s. induction old as [|c old IH]; intros s H.
  - exists s. reflexivity.
  - destruct s as [|d s]; [discriminate H|].
    cbn [String.prefix] in H.
    destruct (ascii_dec c d) as [<-|]; [|discriminate H].
    destruct (IH s H) as [b ->]. exists b. reflexivity.
Qed.

Lemma prefix_length (old s : string) :
  String.prefix old s = true -> (String.length old <= String.length s)%nat.
Proof.
  intros H. destruct (prefix_split old s H) as [b ->].
  clear H. induction old as [|c old IH].
  - cbn [String.length]. lia.
  - rewrite app_cons. cbn [String.length]. lia.
Qed.

(** A text with a match splits at its leftmost match. *)
Lemma first_match (old s : string) :
  Str.occurs old s = true ->
  exists a b, s = a +:+ old +:+ b
              /\ Str.no_match_within old a (old +:+ b) = true.
Proof.
  induction s as [|d s IH]; intros H.
  - cbn [Str.occurs] in H. rewrite orb_false_r in H.
    destruct (prefix_split _ _ H) as [b Hb].
    exists EmptyString, b. split; [exact Hb | reflexivity].
  - cbn [Str.occurs] in H.
    destruct (String.prefix old (String d s)) eqn:Hhere.
    + destruct (prefix_split _ _ Hhere) as [b Hb].
      exists EmptyString, b. split; [exact Hb | reflexivity].
    + cbn [orb] in H. destruct (IH H) as (a & b & -> & Hno).
      exists (String d a), b. split; [reflexivity|].
      cbn [Str.no_match_within]. rewrite app_cons, Hhere, Hno. reflexivity.
Qed.

(** A separator that [old] does not hold cannot lie inside a match. *)
Lemma prefix_before_separator (c : ascii) (old x y : string) :
  Sample.mentions c old = false ->
  String.prefix old (x +:+ String c y) = String.prefix old x.
Proof.
  revert x. induction old as [|o old IH]; intros x Hc.
  - destruct x; reflexivity.
  - cbn [Sample.mentions] in Hc. apply orb_false_iff in Hc as [Hco Hc].
    destruct x as [|e x].
    + rewrite app_nil. cbn [String.prefix].
      destruct (ascii_dec o c) as [->|]; [|reflexivity].
      now rewrite Ascii.eqb_refl in Hco.
    + rewrite app_cons. cbn [String.prefix].
      destruct (ascii_dec o e); [now apply IH | reflexivity].
Qed.

(** Replacement works on the two sides of such a separator one by one. *)
Lemma replace_from_separator (c : ascii) (old new : string)
    (skip : nat) (x y : string) :
  Sample.mentions c old = false ->
  old <> EmptyString ->
  (skip <= String.length x)%nat ->
  Str.replace_from old new skip (x +:+ String c y)
  = Str.replace_from old new skip x
    +:+ String c (Str.replace_from old new 0 y).
Proof.
  intros Hc Hold. revert skip.
  induction x as [|e x IH]; intros skip Hskip.
  - cbn [String.length] in Hskip. assert (skip = 0)%nat as -> by lia.
    rewrite app_nil. cbn [Str.replace_from].
    assert (Hp : String.prefix old (String c y) = false).
    { rewrite <- (app_nil (String c y)), (prefix_before_separator _ _ _ _ Hc).
      destruct old; [congruence | reflexivity]. }
    now rewrite Hp.
  - rewrite app_cons. cbn [String.length] in Hskip.
    destruct skip as [|n]; cbn [Str.replace_from].
    + rewrite <- app_cons, (prefix_before_separator _ _ _ _ Hc).
      destruct (String.prefix old (String e x)) eqn:Hhere.
      * rewrite IH, app_assoc; [reflexivity|].
        apply prefix_length in Hhere. cbn [String.length] in Hhere. lia.
      * rewrite IH by lia. reflexivity.
    + apply IH. lia.
Qed.

End ReplaceFacts.

(** X19.  The derived path equals the master path exactly when [.cfg] does
    not occur in the master path: only then does the forced helper return
    the path it was given. *)
Theorem derived_path_is_master_iff :
  forall (fs : filesystem) (config_filepath : string),
    outcome (get_local_config_filepath fs config_filepath true)
    = Ok config_filepath
    <-> Str.occurs ".cfg" config_filepath = false.
Proof.
  intros fs config_filepath.
  rewrite get_local_config_filepath_eq, orb_true_r. observe.
  split.
  - intros [= Heq].
    destruct (Str.occurs ".cfg" config_filepath) eqn:Hocc; [|reflexivity].
    destruct (ReplaceFacts.first_match _ _ Hocc) as (a & b & -> & Hno).
    change (Str.replace (a +:+ ".cfg" +:+ b) ".cfg" "_local.cfg"
            = a +:+ ".cfg" +:+ b) in Heq.
    rewrite (StrFacts.replace_first_match "." "cfg" "_local.cfg" a b Hno)
      in Heq.
    apply app_cancel in Heq. discriminate Heq.
  - intros Hocc.
    now rewrite (StrFacts.replace_not_occurs "." "cfg" "_local.cfg" _ Hocc).
Qed.

(** X20.  The replacement is applied to the whole path, directory names
    included: for a path [dir/name] the derived path is the derived [dir], a
    slash, and the derived [name]. *)
Theorem derived_path_by_component :
  forall (fs : filesystem) (dir name : string),
    outcome (get_local_config_filepath fs (dir +:+ "/" +:+ name) true)
    = Ok (Str.replace dir ".cfg" "_local.cfg"
          +:+ "/" +:+ Str.replace name ".cfg" "_local.cfg").
Proof.
  intros fs dir name.
  rewrite get_local_config_filepath_eq, orb_true_r. observe.
  f_equal. unfold Str.replace.
  apply (ReplaceFacts.replace_from_separator "/" ".cfg" "_local.cfg" 0 dir name);
    [reflexivity | discriminate | lia].
Qed.

Example derived_path_rewrites_directories :
  outcome (get_local_config_filepath Sample.fs_both "deploy.cfg.d/app.cfg" true)
  = Ok "deploy_local.cfg.d/app_local.cfg".
Proof. reflexivity. Qed.
